(** * A shallow embedding of the Lox tree-walking interpreter

    The development follows [lox/runtime.py] (operators, [show], [truthy])
    and [lox/ast.py] (AST nodes, their [eval] and [validate_self] methods,
    and the run-time objects [LoxFunction], [LoxClass], [LoxInstance],
    [LoxSuper]).

    Python objects are represented as follows.
    - [int] is [Z]; [float] is an IEEE-754 binary64 value, [spec_float]
      with precision 53 and maximal exponent 1024; [bool] is a subclass of
      [int] in Python, which [as_number] makes visible.
    - Dictionaries keyed by names are [gmap string _].
    - Objects that the interpreter mutates (scope frames and the field
      dictionaries of instances) live in a store and are referred to by
      address; objects that no Lox program can mutate ([LoxFunction],
      [LoxClass], [LoxSuper]: [Setattr.eval] rejects the first two) are
      values carrying an identity tag.
    - Exceptions are explicit outcomes of a small state-and-error monad,
      which also records how deeply [eval] and [__call__] activations
      nest. *)

From Stdlib Require Import ZArith Bool List Lia.
From Stdlib Require Import Floats.SpecFloat.
From stdpp Require Import base option strings gmap pretty.

Local Open Scope string_scope.
Set Warnings "-register-all".

(** * Host arithmetic: Python numbers *)

Module PyNum.

Definition prec : Z := 53.
Definition emax : Z := 1024.

Inductive Num :=
| NInt (z : Z)
| NFloat (f : spec_float).

Definition nan : spec_float := S754_nan.
Definition neg_zero : spec_float := S754_zero true.
Definition pos_zero : spec_float := S754_zero false.

(** The arithmetic errors CPython raises on numbers. *)
Inductive ArithError := Overflow | ZeroDivision.

(** [float(z)]: round to nearest even; an [int] beyond the binary64
    range raises [OverflowError]. *)
Definition float_of_int (z : Z) : ArithError + spec_float :=
  match binary_normalize prec emax z 0 false with
  | S754_infinity _ => inl Overflow
  | f => inr f
  end.

(** An [int] as an exact (not normalised) binary fraction. *)
Definition exact_of_int (z : Z) : spec_float :=
  match z with
  | Z0 => S754_zero false
  | Zpos p => S754_finite false p 0
  | Zneg p => S754_finite true p 0
  end.

Definition is_zero (n : Num) : bool :=
  match n with
  | NInt z => Z.eqb z 0
  | NFloat (S754_zero _) => true
  | NFloat _ => false
  end.

Definition float_binop (op : spec_float -> spec_float -> spec_float)
    (iop : Z -> Z -> Z) (a b : Num) : ArithError + Num :=
  match a, b with
  | NInt x, NInt y => inr (NInt (iop x y))
  | NFloat x, NFloat y => inr (NFloat (op x y))
  | NInt x, NFloat y =>
      match float_of_int x with
      | inl e => inl e
      | inr fx => inr (NFloat (op fx y))
      end
  | NFloat x, NInt y =>
      match float_of_int y with
      | inl e => inl e
      | inr fy => inr (NFloat (op x fy))
      end
  end.

Definition add := float_binop (SFadd prec emax) Z.add.
Definition sub := float_binop (SFsub prec emax) Z.sub.
Definition mul := float_binop (SFmul prec emax) Z.mul.

(** [a / b]: true division.  Two [int]s give the correctly rounded
    quotient, or [OverflowError] when it exceeds the binary64 range; a
    zero divisor raises [ZeroDivisionError]. *)
Definition truediv (a b : Num) : ArithError + Num :=
  if is_zero b then inl ZeroDivision
  else
    match a, b with
    | NInt x, NInt y =>
        match SFdiv prec emax (exact_of_int x) (exact_of_int y) with
        | S754_infinity _ => inl Overflow
        | q => inr (NFloat q)
        end
    | NFloat x, NFloat y => inr (NFloat (SFdiv prec emax x y))
    | NInt x, NFloat y =>
        match float_of_int x with
        | inl e => inl e
        | inr fx => inr (NFloat (SFdiv prec emax fx y))
        end
    | NFloat x, NInt y =>
        match float_of_int y with
        | inl e => inl e
        | inr fy => inr (NFloat (SFdiv prec emax x fy))
        end
    end.

(** The value of a finite float as a fraction [m * 2^e] scaled to an
    integer: comparison of an [int] with a [float] is exact in CPython. *)
Definition compare_int_float (z : Z) (f : spec_float) : option comparison :=
  match f with
  | S754_nan => None
  | S754_infinity true => Some Gt
  | S754_infinity false => Some Lt
  | S754_zero _ => Some (Z.compare z 0)
  | S754_finite s m e =>
      let v := if s then Zneg m else Zpos m in
      if Z.leb 0 e then Some (Z.compare z (Z.shiftl v e))
      else Some (Z.compare (Z.shiftl z (Z.opp e)) v)
  end.

Definition compare (a b : Num) : option comparison :=
  match a, b with
  | NInt x, NInt y => Some (Z.compare x y)
  | NFloat x, NFloat y => SFcompare x y
  | NInt x, NFloat y => compare_int_float x y
  | NFloat x, NInt y => option_map CompOpp (compare_int_float y x)
  end.

Definition lt a b := match compare a b with Some Lt => true | _ => false end.
Definition le a b :=
  match compare a b with Some Lt | Some Eq => true | _ => false end.
Definition gt a b := match compare a b with Some Gt => true | _ => false end.
Definition ge a b :=
  match compare a b with Some Gt | Some Eq => true | _ => false end.
Definition eq a b := match compare a b with Some Eq => true | _ => false end.

Definition neg (a : Num) : Num :=
  match a with
  | NInt z => NInt (Z.opp z)
  | NFloat f => NFloat (SFopp f)
  end.

(** [float.is_integer()]. *)
Definition is_integer (f : spec_float) : bool :=
  match f with
  | S754_zero _ => true
  | S754_finite _ m e =>
      if Z.leb 0 e then true
      else Z.eqb (Z.land (Zpos m) (Z.ones (Z.opp e))) 0
  | _ => false
  end.

(** [int(f)] for a float that [is_integer]. *)
Definition int_of_float (f : spec_float) : Z :=
  match f with
  | S754_finite s m e =>
      let v := Z.shiftl (Zpos m) e in
      if s then Z.opp v else v
  | _ => 0
  end.

(** [math.copysign(1, f) < 0]. *)
Definition sign_bit (f : spec_float) : bool :=
  match f with
  | S754_zero s | S754_infinity s | S754_finite s _ _ => s
  | S754_nan => false
  end.

End PyNum.

(** * The abstract syntax tree ([lox/ast.py]) *)

(** The values a [Literal] node carries.  The transformer builds them from
    the tokens [NIL], [BOOL], [NUMBER] ([int] when the text has no ['.'],
    [float] otherwise) and [STRING]. *)
Inductive Lit :=
| LNone
| LBool (b : bool)
| LInt (z : Z)
| LFloat (f : spec_float)
| LStr (s : string).

(** The [op] field of [BinOp] and [UnaryOp] holds one of the operators of
    [lox/runtime.py]; the transformer uses no other callable. *)
Inductive BinaryOperator :=
| op_add | op_sub | op_mul | op_truediv
| op_gt | op_lt | op_ge | op_le | op_eq | op_ne.

Inductive UnaryOperator := op_not_ | op_neg.

Inductive Expr :=
| BinOp (left right : Expr) (op : BinaryOperator)
| Var (name : string)
| Literal (value : Lit)
| And (left right : Expr)
| Or (left right : Expr)
| UnaryOp (op : UnaryOperator) (expr : Expr)
| Call (callee : Expr) (params : list Expr)
| This
| Super (method_name : string)
| Assign (name : string) (value : Expr)
| Getattr (obj : Expr) (attr : string)
| Setattr (obj : Expr) (attr : string) (value : Expr).

(** Statement lists of the source may hold expression nodes (an expression
    statement, the increment of a desugared [for]); [ExprStmt] marks an
    [Expr] in statement position and is not a node of its own. *)
Inductive Stmt :=
| ExprStmt (e : Expr)
| Print (expr : Expr)
| Return (value : Expr)
| VarDef (name : string) (value : Expr)
| If (cond : Expr) (then_ : Stmt) (orelse : Stmt)
| While (cond : Expr) (body : Stmt)
| Block (stmts : list Stmt)
| Function (name : string) (arg_names : list string) (body : list Stmt)
| Class (name : string) (superclass : option Expr) (methods : list Stmt).

Record Program := { stmts : list Stmt }.

Definition RESERVED_WORDS : list string :=
  [ "and"; "class"; "else"; "false"; "for"; "fun"; "if"; "nil";
    "or"; "print"; "return"; "super"; "this"; "true"; "var"; "while" ].

(** * Run-time objects *)

(** A [Ctx] is a scope frame with a reference to its parent.  It is
    represented by the addresses of the frames of its chain, innermost
    first; the scope dictionaries themselves are in the store, so that
    closures and bound methods alias the frames they capture. *)
Record Ctx := { frame : nat; parents : list nat }.

Record LoxFunction := {
  fn_id : nat;
  fn_name : string;
  fn_arg_names : list string;
  fn_body : list Stmt;
  fn_ctx : Ctx
}.

Inductive LoxClass :=
| MkLoxClass (class_id : nat) (name : string)
    (methods : gmap string LoxFunction) (base : option LoxClass).

Definition class_id (c : LoxClass) : nat :=
  match c with MkLoxClass i _ _ _ => i end.
Definition class_name (c : LoxClass) : string :=
  match c with MkLoxClass _ n _ _ => n end.
Definition class_methods (c : LoxClass) : gmap string LoxFunction :=
  match c with MkLoxClass _ _ m _ => m end.
Definition class_base (c : LoxClass) : option LoxClass :=
  match c with MkLoxClass _ _ _ b => b end.

(** [VInstance a c] is the [LoxInstance] at address [a]; its [lox_class]
    never changes ([Setattr.eval] writes to [fields] only), its [fields]
    are in the store.  [VInitLambda i a c] is the Python lambda
    [lambda *args: self.init( *args)] that [LoxInstance.get] returns for
    the name ["init"]. *)
Inductive Value :=
| VNone
| VBool (b : bool)
| VInt (z : Z)
| VFloat (f : spec_float)
| VStr (s : string)
| VFunction (f : LoxFunction)
| VClass (c : LoxClass)
| VInstance (a : nat) (lox_class : LoxClass)
| VSuper (super_id : nat) (superclass : LoxClass)
| VInitLambda (lambda_id : nat) (a : nat) (lox_class : LoxClass).

Definition lit_value (l : Lit) : Value :=
  match l with
  | LNone => VNone
  | LBool b => VBool b
  | LInt z => VInt z
  | LFloat f => VFloat f
  | LStr s => VStr s
  end.

(** [type(v)]. *)
Inductive PyType :=
| T_NoneType | T_bool | T_int | T_float | T_str
| T_LoxFunction | T_LoxClass | T_LoxInstance | T_LoxSuper | T_function.

Definition py_type (v : Value) : PyType :=
  match v with
  | VNone => T_NoneType
  | VBool _ => T_bool
  | VInt _ => T_int
  | VFloat _ => T_float
  | VStr _ => T_str
  | VFunction _ => T_LoxFunction
  | VClass _ => T_LoxClass
  | VInstance _ _ => T_LoxInstance
  | VSuper _ _ => T_LoxSuper
  | VInitLambda _ _ _ => T_function
  end.

Definition py_type_eqb (a b : PyType) : bool :=
  match a, b with
  | T_NoneType, T_NoneType | T_bool, T_bool | T_int, T_int
  | T_float, T_float | T_str, T_str | T_LoxFunction, T_LoxFunction
  | T_LoxClass, T_LoxClass | T_LoxInstance, T_LoxInstance
  | T_LoxSuper, T_LoxSuper | T_function, T_function => true
  | _, _ => false
  end.

(** The variants of the specification's value model: [int] and [float]
    are both [Number]. *)
Inductive Variant_ :=
| Nil_ | Bool_ | Number_ | String_ | Function_ | Class_ | Instance_
| SuperProxy_ | Native_.

Definition variant (v : Value) : Variant_ :=
  match v with
  | VNone => Nil_
  | VBool _ => Bool_
  | VInt _ | VFloat _ => Number_
  | VStr _ => String_
  | VFunction _ => Function_
  | VClass _ => Class_
  | VInstance _ _ => Instance_
  | VSuper _ _ => SuperProxy_
  | VInitLambda _ _ _ => Native_
  end.

(** [isinstance(v, bool)]. *)
Definition is_bool (v : Value) : bool :=
  match v with VBool _ => true | _ => false end.

(** [isinstance(v, (int, float))]: [bool] is a subclass of [int], so
    [True] and [False] pass the test with the values 1 and 0. *)
Definition as_number (v : Value) : option PyNum.Num :=
  match v with
  | VBool b => Some (PyNum.NInt (Z.b2z b))
  | VInt z => Some (PyNum.NInt z)
  | VFloat f => Some (PyNum.NFloat f)
  | _ => None
  end.

(** A Lox number: an [int] or [float] that is not a [bool]. *)
Definition is_number (v : Value) : bool :=
  match v with VInt _ | VFloat _ => true | _ => false end.

Definition is_str (v : Value) : bool :=
  match v with VStr _ => true | _ => false end.

Definition num_value (n : PyNum.Num) : Value :=
  match n with
  | PyNum.NInt z => VInt z
  | PyNum.NFloat f => VFloat f
  end.

(** * Exceptions and outcomes *)

Inductive ExcClass :=
| LoxError | NameError | TypeError | AttributeError | RuntimeError
| KeyError | SemanticError | OverflowError | ZeroDivisionError | ValueError.

(** An exception is its class and its message when the source gives the
    message as a literal; messages built with f-strings are [None].  A
    [KeyError] carries the missing key. *)
Inductive Result (A : Type) :=
| Ok (a : A)
| Raise (c : ExcClass) (msg : option string)
| LoxReturn (value : Value)
| OutOfFuel.
Arguments Ok {A} a.
Arguments Raise {A} c msg.
Arguments LoxReturn {A} value.
Arguments OutOfFuel {A}.

Definition arith_result (r : PyNum.ArithError + PyNum.Num) : Result Value :=
  match r with
  | inr n => Ok (num_value n)
  | inl PyNum.Overflow => Raise OverflowError None
  | inl PyNum.ZeroDivision => Raise ZeroDivisionError None
  end.

(** * Operators ([lox/runtime.py]) *)

Definition lox_add (left right : Value) : Result Value :=
  if is_bool left || is_bool right then
    Raise LoxError (Some "Operands must be two numbers or two strings.")
  else
    match as_number left, as_number right with
    | Some a, Some b => arith_result (PyNum.add a b)
    | _, _ =>
        match left, right with
        | VStr a, VStr b => Ok (VStr (a ++ b))
        | _, _ => Raise LoxError None
        end
    end.

Definition lox_sub (left right : Value) : Result Value :=
  if is_bool left || is_bool right then
    Raise LoxError (Some "Operands must be numbers.")
  else
    match as_number left, as_number right with
    | Some a, Some b => arith_result (PyNum.sub a b)
    | _, _ => Raise LoxError None
    end.

Definition lox_mul (left right : Value) : Result Value :=
  match as_number left, as_number right with
  | Some a, Some b => arith_result (PyNum.mul a b)
  | _, _ => Raise LoxError None
  end.

Definition lox_truediv (left right : Value) : Result Value :=
  match as_number left, as_number right with
  | Some a, Some b =>
      if PyNum.is_zero b then Ok (VFloat PyNum.nan)
      else arith_result (PyNum.truediv a b)
  | _, _ => Raise LoxError None
  end.

Definition lox_compare (cmp : PyNum.Num -> PyNum.Num -> bool)
    (left right : Value) : Result Value :=
  match as_number left, as_number right with
  | Some a, Some b => Ok (VBool (cmp a b))
  | _, _ => Raise LoxError None
  end.

Definition lox_ge := lox_compare PyNum.ge.
Definition lox_le := lox_compare PyNum.le.
Definition lox_gt := lox_compare PyNum.gt.
Definition lox_lt := lox_compare PyNum.lt.

Definition truthy (value : Value) : bool :=
  match value with
  | VNone | VBool false => false
  | _ => true
  end.

Definition is_lox_true (value : Value) : bool := truthy value.

Definition lox_not (value : Value) : Result Value :=
  Ok (VBool (negb (truthy value))).

Definition lox_neg (value : Value) : Result Value :=
  match as_number value with
  | Some n =>
      if PyNum.is_zero n then Ok (VFloat PyNum.neg_zero)
      else Ok (num_value (PyNum.neg n))
  | None => Raise LoxError None
  end.

(** * Converting an [int] to text

    [str] of an [int] (and so [print], and an f-string that formats
    one) raises [ValueError] when the [int] has more than 4300 decimal
    digits, CPython's default [sys.int_info.default_max_str_digits]. *)
Definition int_max_str_digits : Z := 4300.

(** The least [int] with more digits than the limit, computed once. *)
Definition int_str_bound : Z := Eval vm_compute in 10 ^ int_max_str_digits.

Definition str_int_raises (z : Z) : bool := Z.leb int_str_bound (Z.abs z).

(** Whether [str(value)] raises.  A [bool] has its own [str]; the
    [int] of an integral [float] has at most 309 digits. *)
Definition str_raises (value : Value) : bool :=
  match value with
  | VInt z => str_int_raises z
  | _ => false
  end.

(** * The store *)

(** [frames] maps the address of a scope frame to its dictionary,
    [instances] the address of a [LoxInstance] to its [fields]; [next_id]
    is the next free address or identity tag, [stdout] the lines printed
    so far. *)
Record State := {
  frames : gmap nat (gmap string Value);
  instances : gmap nat (gmap string Value);
  next_id : nat;
  stdout : list string
}.

Definition set_frames (f : gmap nat (gmap string Value)) (st : State) : State :=
  {| frames := f; instances := instances st;
     next_id := next_id st; stdout := stdout st |}.

Definition set_instances (i : gmap nat (gmap string Value)) (st : State)
    : State :=
  {| frames := frames st; instances := i;
     next_id := next_id st; stdout := stdout st |}.

Definition scope_of (st : State) (a : nat) : gmap string Value :=
  default ∅ (frames st !! a).

Definition fields_of (st : State) (a : nat) : gmap string Value :=
  default ∅ (instances st !! a).

(** * What the host language supplies

    Four behaviours of CPython are reached from the interpreter and are
    not code of the repository; the embedding takes them as parameters.
    - [float_repr]: [str] of a finite float that is not an integer (the
      shortest digits that round-trip).
    - [host_getattr], [host_setattr]: the reflection that [Getattr.eval]
      and [Setattr.eval] fall back on for receivers other than instances,
      classes, functions and super proxies ([None] and [false] stand for
      [AttributeError]); attributes the host stores this way are not
      tracked.
    - [dataclass_eq]: the [__eq__] that [@dataclass] generates, on two
      distinct objects of one class; it compares fields with [==] and
      reaches [Ctx.__eq__], which is not in the sources. *)
Record Host := {
  float_repr : spec_float -> string;
  host_getattr : State -> Value -> string -> option Value;
  host_setattr : State -> Value -> string -> Value -> bool;
  dataclass_eq : State -> Value -> Value -> bool
}.

(** * The monad of the evaluator

    A computation takes the store and returns an outcome, the new store
    and the greatest number of nested [eval] and [__call__] activations it
    reached.  Helper calls that do not re-enter the evaluator
    ([is_lox_true], the operators, [get], [get_method], [bind], the [Ctx]
    methods) are not counted. *)
Definition M (A : Type) : Type := State -> Result A * State * nat.

Definition m_ret {A} (a : A) : M A := fun st => (Ok a, st, 0).

Definition m_bind {A B} (m : M A) (k : A -> M B) : M B :=
  fun st =>
    match m st with
    | (Ok a, st1, d1) =>
        match k a st1 with
        | (r, st2, d2) => (r, st2, Nat.max d1 d2)
        end
    | (Raise c msg, st1, d1) => (Raise c msg, st1, d1)
    | (LoxReturn v, st1, d1) => (LoxReturn v, st1, d1)
    | (OutOfFuel, st1, d1) => (OutOfFuel, st1, d1)
    end.

Notation "x <- m ;; k" := (m_bind m (fun x => k))
  (at level 100, m at next level, right associativity).

Definition lift {A} (r : Result A) : M A := fun st => (r, st, 0).
Definition raise {A} (c : ExcClass) (msg : option string) : M A :=
  lift (Raise c msg).
Definition get_state : M State := fun st => (Ok st, st, 0).
Definition modify (f : State -> State) : M unit := fun st => (Ok tt, f st, 0).

(** One more activation on the native stack. *)
Definition activation {A} (m : M A) : M A :=
  fun st => match m st with (r, st1, d) => (r, st1, S d) end.

(** What an [except] clause can catch: a Python exception or the
    [LoxReturn] control signal, itself an [Exception]. *)
Inductive Exception :=
| PyExc (c : ExcClass) (msg : option string)
| ReturnSignal (value : Value).

Definition reraise {A} (e : Exception) : M A :=
  match e with
  | PyExc c msg => lift (Raise c msg)
  | ReturnSignal v => lift (LoxReturn v)
  end.

Definition try_except {A} (m : M A) (handler : Exception -> M A) : M A :=
  fun st =>
    match m st with
    | (Raise c msg, st1, d1) =>
        match handler (PyExc c msg) st1 with
        | (r, st2, d2) => (r, st2, Nat.max d1 d2)
        end
    | (LoxReturn v, st1, d1) =>
        match handler (ReturnSignal v) st1 with
        | (r, st2, d2) => (r, st2, Nat.max d1 d2)
        end
    | other => other
    end.

Fixpoint for_each {A} (f : A -> M unit) (l : list A) : M unit :=
  match l with
  | [] => m_ret tt
  | x :: rest => _ <- f x ;; for_each f rest
  end.

Fixpoint map_m {A B} (f : A -> M B) (l : list A) : M (list B) :=
  match l with
  | [] => m_ret []
  | x :: rest => y <- f x ;; ys <- map_m f rest ;; m_ret (y :: ys)
  end.

Definition fresh : M nat :=
  fun st =>
    (Ok (next_id st),
     {| frames := frames st; instances := instances st;
        next_id := S (next_id st); stdout := stdout st |}, 0).

Definition print_line (s : string) : M unit :=
  modify (fun st =>
    {| frames := frames st; instances := instances st;
       next_id := next_id st; stdout := stdout st ++ [s] |}).

(** * Scope chains *)

Definition ctx_chain (ctx : Ctx) : list nat := frame ctx :: parents ctx.

Fixpoint chain_lookup (st : State) (chain : list nat) (name : string)
    : option Value :=
  match chain with
  | [] => None
  | a :: rest =>
      match scope_of st a !! name with
      | Some v => Some v
      | None => chain_lookup st rest name
      end
  end.

Fixpoint chain_owner (st : State) (chain : list nat) (name : string)
    : option nat :=
  match chain with
  | [] => None
  | a :: rest =>
      match scope_of st a !! name with
      | Some _ => Some a
      | None => chain_owner st rest name
      end
  end.

(** Modelled from the spec: [Ctx.__getitem__] ([lox/ctx.py] is not among
    the sources).  "lookup(name) searches current frame then outward";
    the callers catch [KeyError], so a miss raises [KeyError] with the
    name as key. *)
Definition ctx_getitem (ctx : Ctx) (name : string) : M Value :=
  st <- get_state ;;
  match chain_lookup st (ctx_chain ctx) name with
  | Some v => m_ret v
  | None => raise KeyError (Some name)
  end.

(** Modelled from the spec: [Ctx.__setitem__].  "assign(name, value):
    same outward search but requires the name to already exist in some
    frame, mutating it in place; fails with NameError otherwise". *)
Definition ctx_setitem (ctx : Ctx) (name : string) (v : Value) : M unit :=
  st <- get_state ;;
  match chain_owner st (ctx_chain ctx) name with
  | Some a =>
      modify (fun st =>
        set_frames (<[a := <[name := v]> (scope_of st a)]> (frames st)) st)
  | None => raise NameError None
  end.

(** Modelled from the spec: [Ctx.var_def].  "define(name, value)
    inserts/overwrites in the current frame only, no outward search". *)
Definition var_def (ctx : Ctx) (name : string) (v : Value) : M unit :=
  modify (fun st =>
    set_frames
      (<[frame ctx := <[name := v]> (scope_of st (frame ctx))]> (frames st))
      st).

(** Modelled from the spec: the constructor [Ctx(scope, parent)], a new
    frame holding [scope] whose parent is [parent]. *)
Definition new_Ctx (scope : gmap string Value) (parent : Ctx) : M Ctx :=
  a <- fresh ;;
  _ <- modify (fun st => set_frames (<[a := scope]> (frames st)) st) ;;
  m_ret {| frame := a; parents := ctx_chain parent |}.

(** Modelled from the spec: [Ctx.child].  "child() returns a new frame
    whose parent is the receiver". *)
Definition child (ctx : Ctx) : M Ctx := new_Ctx ∅ ctx.

(** [dict(zip(names, values))]: a later pair overwrites an earlier one
    with the same name. *)
Definition dict_zip (names : list string) (values : list Value)
    : gmap string Value :=
  fold_left (fun m p => <[fst p := snd p]> m) (combine names values) ∅.

(** * The object model ([LoxClass], [LoxFunction], [LoxInstance]) *)

(** [LoxClass.get_method]: the class's own table, then its bases. *)
Fixpoint get_method (c : LoxClass) (name : string) : Result LoxFunction :=
  match c with
  | MkLoxClass _ _ methods base =>
      match methods !! name with
      | Some f => Ok f
      | None =>
          match base with
          | Some b => get_method b name
          | None => Raise SemanticError None
          end
      end
  end.

(** [LoxFunction.bind]: a new function object whose context is a child of
    the method's context that defines ["this"]. *)
Definition bind (f : LoxFunction) (obj : Value) : M LoxFunction :=
  bound_ctx <- child (fn_ctx f) ;;
  _ <- var_def bound_ctx "this" obj ;;
  i <- fresh ;;
  m_ret {| fn_id := i; fn_name := fn_name f; fn_arg_names := fn_arg_names f;
           fn_body := fn_body f; fn_ctx := bound_ctx |}.

(** [LoxInstance.set]. *)
Definition set (a : nat) (name : string) (value : Value) : M unit :=
  modify (fun st =>
    set_instances (<[a := <[name := value]> (fields_of st a)]> (instances st))
      st).

(** [LoxInstance.get].  A field shadows a method.  For ["init"] the
    result is a Python lambda that runs [LoxInstance.init].  For another
    method the result is the method bound to the instance; when the class
    has a base the source also stores a wrapper in the attribute
    [__call__] of the bound function object, which Python does not consult
    when the object is called (special methods are looked up on the type),
    so the wrapper never runs. *)
Definition get (a : nat) (c : LoxClass) (name : string) : M Value :=
  st <- get_state ;;
  match fields_of st a !! name with
  | Some v => m_ret v
  | None =>
      if String.eqb name "init" then
        match get_method c "init" with
        | Ok _ => i <- fresh ;; m_ret (VInitLambda i a c)
        | _ => raise AttributeError None
        end
      else
        match get_method c name with
        | Ok method =>
            bound_method <- bind method (VInstance a c) ;;
            m_ret (VFunction bound_method)
        | _ => raise AttributeError None
        end
  end.

(** [callable(v)]. *)
Definition callable (v : Value) : bool :=
  match v with
  | VFunction _ | VClass _ | VInitLambda _ _ _ => true
  | _ => false
  end.

(** * Formatting, equality and the evaluator, over a host *)

Section Interpreter.

Variable host : Host.

(** [str(f)] for a float. *)
Definition str_float (f : spec_float) : string :=
  match f with
  | S754_nan => "nan"
  | S754_infinity false => "inf"
  | S754_infinity true => "-inf"
  | _ => float_repr host f
  end.

(** [show] of [lox/runtime.py]: the text it returns.  Its last line,
    [str(value)], raises on a long [int]; [show_result] below is the
    call with that failure. *)
Definition show (value : Value) : string :=
  match value with
  | VNone => "nil"
  | VBool true => "true"
  | VBool false => "false"
  | VFloat f =>
      if PyNum.is_integer f then
        if PyNum.is_zero (PyNum.NFloat f) && PyNum.sign_bit f then "-0"
        else pretty (PyNum.int_of_float f)
      else str_float f
  | VClass c => class_name c
  | VInstance _ c => class_name c ++ " instance"
  | VFunction f => "<fn " ++ fn_name f ++ ">"
  | VInitLambda _ _ _ => "<native fn>"
  | VInt z => pretty z
  | VStr s => s
  | VSuper _ _ => "super"
  end.

Definition show_repr (value : Value) : string :=
  let quote := String (Ascii.ascii_of_nat 34) EmptyString in
  match value with
  | VStr s => quote ++ s ++ quote
  | _ => show value
  end.

(** A call of [show]: the final [str(value)] raises on a long [int];
    otherwise the result is the text [show] gives. *)
Definition show_result (value : Value) : Result string :=
  if str_raises value then Raise ValueError None else Ok (show value).

(** Python's [left == right].  Numbers (with [bool]) compare by value;
    a dataclass object equals itself, since the generated [__eq__]
    compares the tuples of the fields of both sides, whose items are then
    identical; two distinct dataclass objects are left to [dataclass_eq];
    a lambda has no [__eq__] and compares by identity. *)
Definition py_eq (st : State) (left right : Value) : bool :=
  match as_number left, as_number right with
  | Some a, Some b => PyNum.eq a b
  | _, _ =>
      match left, right with
      | VNone, VNone => true
      | VStr a, VStr b => String.eqb a b
      | VFunction f, VFunction g =>
          if Nat.eqb (fn_id f) (fn_id g) then true
          else dataclass_eq host st left right
      | VClass c, VClass d =>
          if Nat.eqb (class_id c) (class_id d) then true
          else dataclass_eq host st left right
      | VInstance a _, VInstance b _ =>
          if Nat.eqb a b then true else dataclass_eq host st left right
      | VSuper i _, VSuper j _ =>
          if Nat.eqb i j then true else dataclass_eq host st left right
      | VInitLambda i _ _, VInitLambda j _ _ => Nat.eqb i j
      | _, _ => false
      end
  end.

Definition lox_eq (st : State) (left right : Value) : bool :=
  if negb (py_type_eqb (py_type left) (py_type right)) then false
  else
    match left, right with
    | VFunction f, VFunction g => Nat.eqb (fn_id f) (fn_id g)
    | _, _ => py_eq st left right
    end.

Definition lox_ne (st : State) (left right : Value) : bool :=
  negb (lox_eq st left right).

Definition apply_binop (op : BinaryOperator) (left right : Value) : M Value :=
  match op with
  | op_add => lift (lox_add left right)
  | op_sub => lift (lox_sub left right)
  | op_mul => lift (lox_mul left right)
  | op_truediv => lift (lox_truediv left right)
  | op_gt => lift (lox_gt left right)
  | op_lt => lift (lox_lt left right)
  | op_ge => lift (lox_ge left right)
  | op_le => lift (lox_le left right)
  | op_eq => st <- get_state ;; m_ret (VBool (lox_eq st left right))
  | op_ne => st <- get_state ;; m_ret (VBool (lox_ne st left right))
  end.

Definition apply_unop (op : UnaryOperator) (value : Value) : M Value :=
  match op with
  | op_not_ => lift (lox_not value)
  | op_neg => lift (lox_neg value)
  end.

(** An attribute that only the host can resolve.  A [Host] answers with
    Lox values only: the other objects that Python's [getattr] can hand
    out (lists, dictionaries, bound methods, AST nodes, contexts), and
    what calling them does, are outside this model. *)
Definition host_attr (v : Value) (name : string) : M Value :=
  st <- get_state ;;
  match host_getattr host st v name with
  | Some r => m_ret r
  | None => raise AttributeError None
  end.

(** The last case of [Getattr.eval]: [getattr], and on [AttributeError] a
    new [AttributeError] whose message formats the receiver, which
    raises [ValueError] instead when the receiver is a long [int]. *)
Definition getattr_fallback (base : Value) (attr : string) : M Value :=
  st <- get_state ;;
  match host_getattr host st base attr with
  | Some r => m_ret r
  | None =>
      if str_raises base then raise ValueError None
      else raise AttributeError None
  end.

(** The last line of [Call.eval]: the [TypeError] whose message formats
    the value that is not callable. *)
Definition not_callable {A} (func : Value) : M A :=
  if str_raises func then raise ValueError None else raise TypeError None.

(** The handler of [Super.eval]: [str(e)] of a [KeyError] is its key in
    quotes, inspected for the names ["super"] and ["this"]. *)
Definition super_handler (e : Exception) : M Value :=
  match e with
  | PyExc KeyError (Some key) =>
      match String.index 0 "super" key with
      | Some _ => raise NameError None
      | None =>
          match String.index 0 "this" key with
          | Some _ => raise NameError None
          | None => reraise e
          end
      end
  | _ => reraise e
  end.

(** The loop of [Class.eval] over [method_defs]: each method becomes a
    [LoxFunction] closed over [method_ctx]; a later method replaces an
    earlier one of the same name.  Reading [name], [body] or [arg_names]
    of a node that is not a [Function] raises [AttributeError]. *)
Fixpoint build_methods (method_defs : list Stmt) (method_ctx : Ctx)
    (methods : gmap string LoxFunction) : M (gmap string LoxFunction) :=
  match method_defs with
  | [] => m_ret methods
  | Function method_name method_args method_body :: rest =>
      i <- fresh ;;
      build_methods rest method_ctx
        (<[method_name :=
             {| fn_id := i; fn_name := method_name;
                fn_arg_names := method_args; fn_body := method_body;
                fn_ctx := method_ctx |}]> methods)
  | _ :: _ => raise AttributeError None
  end.

(** [Expr_eval] and [Stmt_eval] are the [eval] methods of the nodes;
    [call] is [func( *params)]: [LoxFunction.__call__],
    [LoxClass.__call__], or the lambda around [LoxInstance.init].  Every
    [eval] and [__call__] is one activation.  [fuel] bounds the nesting of
    activations; [OutOfFuel] is not an exception and no handler sees it. *)
Fixpoint Expr_eval (fuel : nat) (e : Expr) (ctx : Ctx) {struct fuel}
    : M Value :=
  match fuel with
  | O => lift OutOfFuel
  | S fuel' =>
      let call_value (func : Value) (args : list Value) : M Value :=
        if callable func then call fuel' func args
        else raise TypeError None in
      activation
        match e with
        | BinOp l r op =>
            left_value <- Expr_eval fuel' l ctx ;;
            right_value <- Expr_eval fuel' r ctx ;;
            apply_binop op left_value right_value
        | Var name =>
            try_except (ctx_getitem ctx name)
              (fun e =>
                 match e with
                 | PyExc KeyError _ => raise NameError None
                 | _ => reraise e
                 end)
        | Literal value => m_ret (lit_value value)
        | And l r =>
            left_value <- Expr_eval fuel' l ctx ;;
            if negb (is_lox_true left_value) then m_ret left_value
            else Expr_eval fuel' r ctx
        | Or l r =>
            left_value <- Expr_eval fuel' l ctx ;;
            if is_lox_true left_value then m_ret left_value
            else Expr_eval fuel' r ctx
        | UnaryOp op expr =>
            value <- Expr_eval fuel' expr ctx ;;
            apply_unop op value
        | Call callee params =>
            func <- Expr_eval fuel' callee ctx ;;
            args <- map_m (fun param => Expr_eval fuel' param ctx) params ;;
            if callable func then call fuel' func args
            else not_callable func
        | This =>
            try_except (ctx_getitem ctx "this")
              (fun e =>
                 match e with
                 | PyExc KeyError _ => raise NameError None
                 | _ => reraise e
                 end)
        | Super method_name =>
            try_except
              (super_class <- ctx_getitem ctx "super" ;;
               this_instance <- ctx_getitem ctx "this" ;;
               method <-
                 match super_class with
                 | VClass c =>
                     f <- lift (get_method c method_name) ;;
                     m_ret (VFunction f)
                 | v =>
                     g <- host_attr v "get_method" ;;
                     call_value g [VStr method_name]
                 end ;;
               match method with
               | VFunction f =>
                   bound <- bind f this_instance ;; m_ret (VFunction bound)
               | v =>
                   g <- host_attr v "bind" ;; call_value g [this_instance]
               end)
              super_handler
        | Assign name value =>
            v <- Expr_eval fuel' value ctx ;;
            _ <- ctx_setitem ctx name v ;;
            m_ret v
        | Getattr obj attr =>
            base <- Expr_eval fuel' obj ctx ;;
            match base with
            | VInstance a c => get a c attr
            | VSuper _ superclass =>
                f <- lift (get_method superclass attr) ;;
                m_ret (VFunction f)
            | _ => getattr_fallback base attr
            end
        | Setattr obj attr value =>
            obj_value <- Expr_eval fuel' obj ctx ;;
            v <- Expr_eval fuel' value ctx ;;
            match obj_value with
            | VInstance a _ => _ <- set a attr v ;; m_ret v
            | VClass _ | VFunction _ =>
                raise RuntimeError (Some "Only instances have fields.")
            | _ =>
                st <- get_state ;;
                if host_setattr host st obj_value attr v then m_ret v
                else raise AttributeError None
            end
        end
  end

with Stmt_eval (fuel : nat) (s : Stmt) (ctx : Ctx) {struct fuel} : M unit :=
  match fuel with
  | O => lift OutOfFuel
  | S fuel' =>
      match s with
      | ExprStmt e => _ <- Expr_eval fuel' e ctx ;; m_ret tt
      | Print expr =>
          activation
            (value <- Expr_eval fuel' expr ctx ;;
             text <- lift (show_result value) ;;
             print_line text)
      | Return value =>
          activation
            (v <- Expr_eval fuel' value ctx ;; lift (LoxReturn v))
      | VarDef name value =>
          activation (v <- Expr_eval fuel' value ctx ;; var_def ctx name v)
      | If cond then_ orelse =>
          activation
            (c <- Expr_eval fuel' cond ctx ;;
             if is_lox_true c then Stmt_eval fuel' then_ ctx
             else Stmt_eval fuel' orelse ctx)
      | While cond body =>
          activation
            (c <- Expr_eval fuel' cond ctx ;;
             if is_lox_true c then
               _ <- Stmt_eval fuel' body ctx ;;
               Stmt_eval fuel' (While cond body) ctx
             else m_ret tt)
      | Block stmts =>
          activation
            (child_ctx <- child ctx ;;
             for_each (fun stmt => Stmt_eval fuel' stmt child_ctx) stmts)
      | Function name arg_names body =>
          activation
            (i <- fresh ;;
             var_def ctx name
               (VFunction {| fn_id := i; fn_name := name;
                             fn_arg_names := arg_names; fn_body := body;
                             fn_ctx := ctx |}))
      | Class name superclass method_defs =>
          activation
            (base <-
               match superclass with
               | None => m_ret None
               | Some e =>
                   try_except
                     (v <- Expr_eval fuel' e ctx ;;
                      match v with
                      | VClass c => m_ret (Some c)
                      | _ =>
                          raise RuntimeError
                            (Some "Superclass must be a class.")
                      end)
                     (fun exc =>
                        match exc with
                        | PyExc RuntimeError _ => reraise exc
                        | _ => m_ret None
                        end)
               end ;;
             method_ctx <-
               match base with
               | None => m_ret ctx
               | Some c =>
                   mc <- child ctx ;;
                   _ <- var_def mc "super" (VClass c) ;;
                   m_ret mc
               end ;;
             methods <- build_methods method_defs method_ctx ∅ ;;
             i <- fresh ;;
             var_def ctx name (VClass (MkLoxClass i name methods base)))
      end
  end

with call (fuel : nat) (func : Value) (args : list Value) {struct fuel}
    : M Value :=
  match fuel with
  | O => lift OutOfFuel
  | S fuel' =>
      match func with
      | VFunction f =>
          activation
            (if negb (Nat.eqb (length (fn_arg_names f)) (length args)) then
               raise TypeError None
             else
               ctx <- new_Ctx (dict_zip (fn_arg_names f) args) (fn_ctx f) ;;
               try_except
                 (_ <- for_each (fun stmt => Stmt_eval fuel' stmt ctx)
                        (fn_body f) ;;
                  m_ret VNone)
                 (fun e =>
                    match e with
                    | ReturnSignal value => m_ret value
                    | _ => reraise e
                    end))
      | VClass c =>
          activation
            (a <- fresh ;;
             _ <- modify (fun st =>
                    set_instances (<[a := ∅]> (instances st)) st) ;;
             let instance := VInstance a c in
             _ <- try_except
                    (init_method <- lift (get_method c "init") ;;
                     bound_init <- bind init_method instance ;;
                     _ <- call fuel' (VFunction bound_init) args ;;
                     m_ret tt)
                    (fun _ =>
                       match args with
                       | [] => m_ret tt
                       | _ :: _ => raise TypeError None
                       end) ;;
             m_ret instance)
      | VInitLambda _ a c =>
          activation
            (activation
               (try_except
                  (init_method <- lift (get_method c "init") ;;
                   bound_init <- bind init_method (VInstance a c) ;;
                   _ <- call fuel' (VFunction bound_init) args ;;
                   m_ret (VInstance a c))
                  (fun _ => m_ret (VInstance a c))))
      | _ => raise TypeError None
      end
  end.

(** [Program.eval]. *)
Definition Program_eval (fuel : nat) (p : Program) (ctx : Ctx) : M unit :=
  activation (for_each (fun stmt => Stmt_eval fuel stmt ctx) (stmts p)).

(** The number of iterations a [While.eval] call with [fuel] performs:
    how many times the condition was truthy and the body then completed
    normally. *)
Fixpoint count_iterations (fuel : nat) (cond : Expr) (body : Stmt)
    (ctx : Ctx) (st : State) : nat :=
  match fuel with
  | O => 0
  | S fuel' =>
      match Expr_eval fuel' cond ctx st with
      | (Ok c, st1, _) =>
          if is_lox_true c then
            match Stmt_eval fuel' body ctx st1 with
            | (Ok _, st2, _) => S (count_iterations fuel' cond body ctx st2)
            | _ => 0
            end
          else 0
      | _ => 0
      end
  end.

End Interpreter.

(** [Ctx()]: the root frame of a fresh store. *)
Definition root_ctx : Ctx := {| frame := 0; parents := [] |}.

Definition initial_state : State :=
  {| frames := {[0 := ∅]}; instances := ∅; next_id := 1; stdout := [] |}.

(** Projections of a run. *)
Definition outcome {A} (r : Result A * State * nat) : Result A := fst (fst r).
Definition final_state {A} (r : Result A * State * nat) : State :=
  snd (fst r).
Definition stack_depth {A} (r : Result A * State * nat) : nat := snd r.

(** * The static validator ([validate_self] hooks of [lox/ast.py]) *)

(** A node of the tree, as a cursor reaches it. *)
Inductive Node :=
| ProgramNode (p : Program)
| StmtNode (s : Stmt)
| ExprNode (e : Expr).

(** [isinstance(node, Block)] and [isinstance(node, Program)]. *)
Definition is_Block (n : Node) : bool :=
  match n with StmtNode (Block _) => true | _ => false end.
Definition is_Program (n : Node) : bool :=
  match n with ProgramNode _ => true | _ => false end.

Definition is_reserved (name : string) : bool :=
  existsb (String.eqb name) RESERVED_WORDS.

(** [VarDef._uses_variable_in_expression].  The chain of [isinstance]
    tests has no branch for [And] and [Or]; they reach the final
    [return False], as [Literal], [This] and [Super] do. *)
Fixpoint _uses_variable_in_expression (expr : Expr) (var_name : string)
    : bool :=
  match expr with
  | Var name => String.eqb name var_name
  | BinOp l r _ =>
      _uses_variable_in_expression l var_name
      || _uses_variable_in_expression r var_name
  | UnaryOp _ e => _uses_variable_in_expression e var_name
  | Call callee params =>
      if _uses_variable_in_expression callee var_name then true
      else
        (fix any_param (ps : list Expr) : bool :=
           match ps with
           | [] => false
           | param :: rest =>
               if _uses_variable_in_expression param var_name then true
               else any_param rest
           end) params
  | Getattr obj _ => _uses_variable_in_expression obj var_name
  | Setattr obj _ value =>
      _uses_variable_in_expression obj var_name
      || _uses_variable_in_expression value var_name
  | Assign _ value => _uses_variable_in_expression value var_name
  | Literal _ | This | Super _ => false
  | And _ _ | Or _ _ => false
  end.

(** The loop of [VarDef.validate_self] over [cursor.parents()]: the first
    [Block] met raises, the [Program] stops the search. *)
Fixpoint own_initializer_check (parents : list Node) : Result unit :=
  match parents with
  | [] => Ok tt
  | parent :: rest =>
      if is_Block parent then
        Raise SemanticError
          (Some "Can't read local variable in its own initializer.")
      else if is_Program parent then Ok tt
      else own_initializer_check rest
  end.

(** [VarDef.validate_self].  Modelled from the spec: [Cursor.parents]
    ([lox/node.py] is not among the sources), "a pre-execution walk over
    the whole tree, given parent-chain context at each node"; [parents]
    lists the ancestors of the declaration from the nearest to the
    root. *)
Definition VarDef_validate_self (name : string) (value : Expr)
    (parents : list Node) : Result unit :=
  if is_reserved name then
    Raise SemanticError (Some "Expect variable name.")
  else if _uses_variable_in_expression value name then
    own_initializer_check parents
  else Ok tt.

(** [Var.validate_self]. *)
Definition Var_validate_self (name : string) : Result unit :=
  if is_reserved name then
    Raise SemanticError (Some "Expect variable name.")
  else Ok tt.

(** The loop shared by [Block.validate_self] and
    [Function.validate_self]: the first name already [seen] raises. *)
Fixpoint first_duplicate (seen names : list string) : option string :=
  match names with
  | [] => None
  | name :: rest =>
      if bool_decide (name ∈ seen) then Some name
      else first_duplicate (name :: seen) rest
  end.

(** [if len(names) != len(set(names))]: then the loop. *)
Definition check_duplicates (names : list string) : Result unit :=
  if negb (Nat.eqb (length names) (length (remove_dups names))) then
    match first_duplicate [] names with
    | Some _ =>
        Raise SemanticError
          (Some "Already a variable with this name in this scope.")
    | None => Ok tt
    end
  else Ok tt.

(** The names of the [VarDef] statements directly in a list of
    statements. *)
Definition var_names (stmts : list Stmt) : list string :=
  flat_map (fun s => match s with VarDef n _ => [n] | _ => [] end) stmts.

(** [Block.validate_self]: no two [VarDef] statements of the block share
    a name. *)
Definition Block_validate_self (stmts : list Stmt) : Result unit :=
  check_duplicates (var_names stmts).

(** [Function._check_vardefs_in_body] on one statement: a [VarDef] is
    checked against the parameters, a [Block] is searched, every other
    statement is skipped. *)
Fixpoint check_vardefs_in_stmt (stmt : Stmt) (param_set : list string)
    : Result unit :=
  match stmt with
  | VarDef name _ =>
      if bool_decide (name ∈ param_set) then
        Raise SemanticError
          (Some "Already a variable with this name in this scope.")
      else Ok tt
  | Block stmts =>
      (fix check_all (l : list Stmt) : Result unit :=
         match l with
         | [] => Ok tt
         | s :: rest =>
             match check_vardefs_in_stmt s param_set with
             | Ok _ => check_all rest
             | err => err
             end
         end) stmts
  | _ => Ok tt
  end.

(** [Function._check_vardefs_in_body]. *)
Fixpoint _check_vardefs_in_body (stmts : list Stmt) (param_set : list string)
    : Result unit :=
  match stmts with
  | [] => Ok tt
  | s :: rest =>
      match check_vardefs_in_stmt s param_set with
      | Ok _ => _check_vardefs_in_body rest param_set
      | err => err
      end
  end.

(** [Function.validate_self]: duplicate parameters, then reserved words
    among the parameters, then the declarations of the body. *)
Definition Function_validate_self (arg_names : list string)
    (body : list Stmt) : Result unit :=
  match check_duplicates arg_names with
  | Ok _ =>
      if existsb is_reserved arg_names then
        Raise SemanticError (Some "Expect variable name.")
      else _check_vardefs_in_body body arg_names
  | err => err
  end.

(** A host that offers no reflection, for closed examples whose runs never
    reach the host. *)
Definition no_reflection : Host :=
  {| float_repr := fun _ => "<float>";
     host_getattr := fun _ _ _ => None;
     host_setattr := fun _ _ _ _ => false;
     dataclass_eq := fun _ _ _ => false |}.

(** Floats used in the examples: 0.5 and 1.5. *)
Definition float_half : spec_float := S754_finite false 4503599627370496 (-53).
Definition float_3_2 : spec_float := S754_finite false 6755399441055744 (-52).

(** What a run of a whole program shows: its outcome and what it
    printed. *)
Definition run_program (host : Host) (fuel : nat) (program : list Stmt)
    : Result unit * list string :=
  let r := Program_eval host fuel {| stmts := program |} root_ctx
             initial_state in
  (outcome r, stdout (final_state r)).

(** The classes [c], [c.base], [c.base.base], ... that
    [LoxClass.get_method] visits. *)
Fixpoint inheritance_chain (c : LoxClass) : list LoxClass :=
  match c with
  | MkLoxClass _ _ _ base =>
      c :: match base with
           | Some b => inheritance_chain b
           | None => []
           end
  end.

(** [var i = 0; while (i < n) i = i + 1;] *)
Definition counting_cond (n : Z) : Expr :=
  BinOp (Var "i") (Literal (LInt n)) op_lt.
Definition counting_body : Stmt :=
  ExprStmt (Assign "i" (BinOp (Var "i") (Literal (LInt 1)) op_add)).
Definition counting_loop (n : Z) : list Stmt :=
  [VarDef "i" (Literal (LInt 0)); While (counting_cond n) counting_body].

(** The store after [var i = 0;] at top level. *)
Definition counter_state : State :=
  {| frames := {[0 := {["i" := VInt 0]}]}; instances := ∅; next_id := 1;
     stdout := [] |}.

(** A store in which the frame of [method_ctx] binds ["this"] to an
    instance of [class_A], ["super"] to [class_A] and ["p"] to a
    [LoxSuper] around [class_A]; the method [f] of [class_A] is
    [f() { return this; }], declared at top level. *)
Definition method_f : LoxFunction :=
  {| fn_id := 1; fn_name := "f"; fn_arg_names := [];
     fn_body := [Return This]; fn_ctx := root_ctx |}.
Definition class_A : LoxClass := MkLoxClass 2 "A" {["f" := method_f]} None.
Definition method_ctx : Ctx := {| frame := 5; parents := [0] |}.
Definition super_state : State :=
  {| frames := {[0 := ∅;
                 5 := {["this" := VInstance 3 class_A;
                        "super" := VClass class_A;
                        "p" := VSuper 4 class_A]}]};
     instances := {[3 := ∅]}; next_id := 6; stdout := [] |}.

(** [class C { init(x) { this.x = x; return 1; } }] and a class without
    [init] whose base has none either. *)
Definition class_C : LoxClass :=
  MkLoxClass 1 "C"
    {["init" := {| fn_id := 2; fn_name := "init"; fn_arg_names := ["x"];
                   fn_body := [ExprStmt (Setattr This "x" (Var "x"));
                               Return (Literal (LInt 1))];
                   fn_ctx := root_ctx |}]} None.
Definition class_D : LoxClass :=
  MkLoxClass 3 "D" ∅ (Some (MkLoxClass 4 "E" ∅ None)).

(** [class F { init(x) { this.x = x; print undefined; } }]: an
    initializer that stores a field and then fails. *)
Definition class_F : LoxClass :=
  MkLoxClass 1 "F"
    {["init" := {| fn_id := 2; fn_name := "init"; fn_arg_names := ["x"];
                   fn_body := [ExprStmt (Setattr This "x" (Var "x"));
                               Print (Var "undefined")];
                   fn_ctx := root_ctx |}]} None.
Definition class_state : State :=
  {| frames := {[0 := ∅]}; instances := ∅; next_id := 5; stdout := [] |}.

(** The names of the [Function] nodes of a list of statements, the keys
    that the loop of [Class.eval] writes. *)
Definition function_names (stmts : list Stmt) : list string :=
  flat_map (fun s => match s with Function n _ _ => [n] | _ => [] end) stmts.

(** * Properties of computations *)

(** The output of [st'] is the output of [st] with lines added at the
    end. *)
Definition output_extends (st st' : State) : Prop :=
  exists out : list string, stdout st' = (stdout st ++ out)%list.

(** A computation that only ever appends to the output. *)
Definition appends_only {A} (m : M A) : Prop :=
  forall st, output_extends st (final_state (m st)).

(** A computation that never ends with the [LoxReturn] signal. *)
Definition never_returns {A} (m : M A) : Prop :=
  forall st v, outcome (m st) <> LoxReturn v.

(** * Host arithmetic: sanity checks *)

Example float_of_int_rounds_to_even :
  PyNum.float_of_int (2 ^ 53 + 1) = inr (S754_finite false (2 ^ 52) 1).
Proof. vm_compute. reflexivity. Qed.

Example truediv_one_third :
  PyNum.truediv (PyNum.NInt 1) (PyNum.NInt 3)
  = inr (PyNum.NFloat (S754_finite false 6004799503160661 (-54))).
Proof. vm_compute. reflexivity. Qed.

Example truediv_halfway_case :
  PyNum.truediv (PyNum.NInt (2 ^ 53 + 3)) (PyNum.NInt 1)
  = inr (PyNum.NFloat (S754_finite false (2 ^ 52 + 2) 1)).
Proof. vm_compute. reflexivity. Qed.

Example floats_of_the_examples :
  PyNum.truediv (PyNum.NInt 1) (PyNum.NInt 2) = inr (PyNum.NFloat float_half)
  /\ PyNum.truediv (PyNum.NInt 3) (PyNum.NInt 2)
     = inr (PyNum.NFloat float_3_2).
Proof. split; vm_compute; reflexivity. Qed.

Lemma Z_compare_self (z : Z) : Z.compare z z = Eq.
Proof. apply Z.compare_refl. Qed.

Lemma SFcompare_self (f : spec_float) :
  f <> S754_nan -> SFcompare f f = Some Eq.
Proof.
  destruct f as [s | s | | s m e]; intros Hnan; try congruence.
  - reflexivity.
  - destruct s; reflexivity.
  - simpl. rewrite Z.compare_refl.
    assert (Hm : Pos.compare_cont Eq m m = Eq) by apply Pos.compare_refl.
    rewrite Hm. destruct s; reflexivity.
Qed.

Lemma PyNum_eq_self (n : PyNum.Num) :
  n <> PyNum.NFloat S754_nan -> PyNum.eq n n = true.
Proof.
  destruct n as [z | f]; intros Hnan; unfold PyNum.eq, PyNum.compare.
  - rewrite Z.compare_refl. reflexivity.
  - rewrite SFcompare_self; [reflexivity | congruence].
Qed.

(** * The scenarios of the specification *)

Example scenario_assignment :
  run_program no_reflection 5
    [ VarDef "x" (Literal (LInt 5));
      ExprStmt (Assign "x" (BinOp (Var "x") (Literal (LInt 1)) op_add));
      Print (Var "x") ]
  = (Ok tt, ["6"]).
Proof. vm_compute. reflexivity. Qed.

Example scenario_for_loop :
  run_program no_reflection 12
    [ Block
        [ VarDef "i" (Literal (LInt 0));
          While (BinOp (Var "i") (Literal (LInt 3)) op_lt)
            (Block
               [ Print (Var "i");
                 ExprStmt
                   (Assign "i" (BinOp (Var "i") (Literal (LInt 1)) op_add))
               ]) ] ]
  = (Ok tt, ["0"; "1"; "2"]).
Proof. vm_compute. reflexivity. Qed.

Example scenario_super_call :
  run_program no_reflection 12
    [ Class "A" None [Function "f" [] [Return (Literal (LStr "A"))]];
      Class "B" (Some (Var "A"))
        [ Function "f" []
            [ Return
                (BinOp (Call (Super "f") []) (Literal (LStr "B")) op_add) ] ];
      Print (Call (Getattr (Call (Var "B") []) "f") []) ]
  = (Ok tt, ["AB"]).
Proof. vm_compute. reflexivity. Qed.

(** * Division by zero *)

(** C2.  Division never raises on a zero divisor: for all operands that
    pass the number test of [lox_truediv], when the right one equals 0
    (the [int] 0 or a float zero of either sign) the result is the float
    NaN; [show] renders NaN as "nan", and the program [print 1/0;] ends
    normally having printed "nan". *)
Theorem truediv_by_zero_is_nan (host : Host) (left right : Value)
    (a b : PyNum.Num) :
  as_number left = Some a ->
  as_number right = Some b ->
  PyNum.is_zero b = true ->
  lox_truediv left right = Ok (VFloat PyNum.nan)
  /\ show host (VFloat PyNum.nan) = "nan"
  /\ run_program host 4
       [Print (BinOp (Literal (LInt 1)) (Literal (LInt 0)) op_truediv)]
     = (Ok tt, ["nan"]).
Proof.
  intros Ha Hb Hz. split; [| split].
  - unfold lox_truediv. rewrite Ha, Hb, Hz. reflexivity.
  - reflexivity.
  - vm_compute. reflexivity.
Qed.

Lemma truediv_by_zero_is_nan_witness :
  lox_truediv (VFloat float_3_2) (VFloat PyNum.neg_zero)
  = Ok (VFloat PyNum.nan)
  /\ show no_reflection (VFloat PyNum.nan) = "nan"
  /\ run_program no_reflection 4
       [Print (BinOp (Literal (LInt 1)) (Literal (LInt 0)) op_truediv)]
     = (Ok tt, ["nan"]).
Proof.
  apply (truediv_by_zero_is_nan no_reflection (VFloat float_3_2)
           (VFloat PyNum.neg_zero) (PyNum.NFloat float_3_2)
           (PyNum.NFloat PyNum.neg_zero));
    reflexivity.
Defined.

(** * Negation of zero *)

(** C10.  [lox_neg] maps every number that equals 0 to the float -0.0,
    negative zero included, so negating twice does not give the operand
    back: [show] of the double negation of 0 is "-0" while [show] of 0 is
    "0". *)
Theorem neg_of_zero_is_negative_zero (host : Host) (value : Value)
    (n : PyNum.Num) :
  as_number value = Some n ->
  PyNum.is_zero n = true ->
  lox_neg value = Ok (VFloat PyNum.neg_zero)
  /\ lox_neg (VFloat PyNum.neg_zero) = Ok (VFloat PyNum.neg_zero)
  /\ show host (VFloat PyNum.neg_zero) = "-0"
  /\ show host (VInt 0) = "0"
  /\ show host (VFloat PyNum.pos_zero) = "0"
  /\ run_program host 5
       [Print (UnaryOp op_neg (UnaryOp op_neg (Literal (LInt 0))))]
     = (Ok tt, ["-0"]).
Proof.
  intros Hn Hz. split.
  - unfold lox_neg. rewrite Hn, Hz. reflexivity.
  - repeat split; vm_compute; reflexivity.
Qed.

Lemma neg_of_zero_is_negative_zero_witness :
  lox_neg (VInt 0) = Ok (VFloat PyNum.neg_zero)
  /\ lox_neg (VFloat PyNum.neg_zero) = Ok (VFloat PyNum.neg_zero)
  /\ show no_reflection (VFloat PyNum.neg_zero) = "-0"
  /\ show no_reflection (VInt 0) = "0"
  /\ show no_reflection (VFloat PyNum.pos_zero) = "0"
  /\ run_program no_reflection 5
       [Print (UnaryOp op_neg (UnaryOp op_neg (Literal (LInt 0))))]
     = (Ok tt, ["-0"]).
Proof.
  apply (neg_of_zero_is_negative_zero no_reflection (VInt 0) (PyNum.NInt 0));
    reflexivity.
Defined.

(** Away from zero negation is the host's, which is an involution. *)
Example neg_twice_away_from_zero :
  lox_neg (VInt 7) = Ok (VInt (-7)) /\ lox_neg (VInt (-7)) = Ok (VInt 7).
Proof. split; reflexivity. Qed.

(** * Operand checks of the arithmetic operators *)

(** Operands that fail the number test are rejected by [-], [*] and [/]. *)
Lemma arith_rejects_non_numbers (left right : Value) :
  as_number left = None \/ as_number right = None ->
  (exists msg, lox_sub left right = Raise LoxError msg)
  /\ lox_mul left right = Raise LoxError None
  /\ lox_truediv left right = Raise LoxError None.
Proof.
  intros H. unfold lox_sub, lox_mul, lox_truediv.
  destruct (is_bool left || is_bool right);
    destruct (as_number left), (as_number right);
    destruct H as [H | H]; try discriminate H; eauto.
Qed.

(** [lox_sub] also rejects booleans, which pass the number test. *)
Lemma sub_rejects_booleans (left right : Value) :
  is_bool left || is_bool right = true ->
  lox_sub left right = Raise LoxError (Some "Operands must be numbers.").
Proof. intros H. unfold lox_sub. rewrite H. reflexivity. Qed.

(** C4.  [lox_mul] and [lox_truediv] lack the boolean test that [lox_sub]
    and [lox_add] make first: [True] passes [isinstance(_, (int, float))],
    so [true * 2] is 2 and [true / 2] is 0.5, where [true - 2] raises;
    the program [print true * 2;] prints "2". *)
Theorem mul_and_truediv_accept_booleans :
  lox_mul (VBool true) (VInt 2) = Ok (VInt 2)
  /\ lox_truediv (VBool true) (VInt 2) = Ok (VFloat float_half)
  /\ lox_sub (VBool true) (VInt 2)
     = Raise LoxError (Some "Operands must be numbers.")
  /\ run_program no_reflection 4
       [Print (BinOp (Literal (LBool true)) (Literal (LInt 2)) op_mul)]
     = (Ok tt, ["2"]).
Proof. repeat split; vm_compute; reflexivity. Qed.

(** * Addition *)

(** The sum of two [int]s is exact and the sum of two floats is the
    IEEE-754 sum; neither raises.  Only a mixed pair can overflow, when
    the [int] is converted. *)
Lemma add_same_kind (x y : Z) (f g : spec_float) :
  PyNum.add (PyNum.NInt x) (PyNum.NInt y) = inr (PyNum.NInt (x + y))
  /\ PyNum.add (PyNum.NFloat f) (PyNum.NFloat g)
     = inr (PyNum.NFloat (SFadd PyNum.prec PyNum.emax f g)).
Proof. split; reflexivity. Qed.

Lemma add_raises_only_overflow (a b : PyNum.Num) (e : PyNum.ArithError) :
  PyNum.add a b = inl e -> e = PyNum.Overflow.
Proof.
  unfold PyNum.add, PyNum.float_binop, PyNum.float_of_int.
  destruct a as [x | f], b as [y | g]; try discriminate.
  - destruct (binary_normalize PyNum.prec PyNum.emax x 0 false);
      intros H; inversion H; reflexivity.
  - destruct (binary_normalize PyNum.prec PyNum.emax y 0 false);
      intros H; inversion H; reflexivity.
Qed.

Lemma is_number_as_number (v : Value) :
  is_number v = true -> exists n, as_number v = Some n /\ is_bool v = false.
Proof. destruct v; simpl; try discriminate; eauto. Qed.

Lemma not_number_not_bool (v : Value) :
  is_number v = false -> is_bool v = false -> as_number v = None.
Proof. destruct v; simpl; try discriminate; reflexivity. Qed.

(** Not every pair of numbers has a sum: on a mixed pair whose [int] is
    beyond the range of a float, [10**400 + 1.5], the host raises
    [OverflowError]. *)
Lemma add_of_two_numbers_can_raise :
  is_number (VInt (10 ^ 400)) = true
  /\ is_number (VFloat float_3_2) = true
  /\ lox_add (VInt (10 ^ 400)) (VFloat float_3_2) = Raise OverflowError None.
Proof. repeat split; vm_compute; reflexivity. Qed.

(** C5, amended.  [lox_add] concatenates two strings; on two numbers it
    returns the host's sum, which raises [OverflowError] when an [int]
    operand does not fit a float and is otherwise a value; whenever an
    operand is a boolean, and for every other pair, it raises
    [LoxError]. *)
Theorem add_accepts_numbers_or_strings (left right : Value) :
  (forall a b, left = VStr a -> right = VStr b ->
     lox_add left right = Ok (VStr (a ++ b)))
  /\ (forall a b, is_number left = true -> is_number right = true ->
        as_number left = Some a -> as_number right = Some b ->
        lox_add left right = arith_result (PyNum.add a b)
        /\ (lox_add left right = Raise OverflowError None
            \/ exists n, PyNum.add a b = inr n
                         /\ lox_add left right = Ok (num_value n)))
  /\ (is_bool left || is_bool right = true ->
      lox_add left right
      = Raise LoxError (Some "Operands must be two numbers or two strings."))
  /\ (is_number left && is_number right = false ->
      is_str left && is_str right = false ->
      exists msg, lox_add left right = Raise LoxError msg).
Proof.
  repeat split.
  - intros a b -> ->. reflexivity.
  - destruct (is_number_as_number _ H) as [a' [Ha' Hbl]].
    destruct (is_number_as_number _ H0) as [b' [Hb' Hbr]].
    unfold lox_add. rewrite Hbl, Hbr. simpl.
    rewrite H1, H2. reflexivity.
  - destruct (is_number_as_number _ H) as [a' [Ha' Hbl]].
    destruct (is_number_as_number _ H0) as [b' [Hb' Hbr]].
    unfold lox_add. rewrite Hbl, Hbr. simpl.
    rewrite H1, H2.
    destruct (PyNum.add a b) as [e | n] eqn:Hadd.
    + left. rewrite (add_raises_only_overflow _ _ _ Hadd). reflexivity.
    + right. exists n. split; reflexivity.
  - intros H. unfold lox_add. rewrite H. reflexivity.
  - intros Hnum Hstr. unfold lox_add.
    destruct (is_bool left || is_bool right) eqn:Hb; [eauto |].
    apply orb_false_iff in Hb as [Hbl Hbr].
    destruct left, right; simpl in *; try discriminate; eauto.
Qed.

Lemma add_accepts_numbers_or_strings_witness :
  lox_add (VStr "foo") (VStr "bar") = Ok (VStr "foobar")
  /\ lox_add (VInt 2) (VFloat float_half)
     = arith_result (PyNum.add (PyNum.NInt 2) (PyNum.NFloat float_half))
  /\ lox_add (VBool true) (VInt 1)
     = Raise LoxError (Some "Operands must be two numbers or two strings.")
  /\ exists msg, lox_add VNone (VStr "x") = Raise LoxError msg.
Proof.
  split; [| split; [| split]].
  - apply (proj1 (add_accepts_numbers_or_strings (VStr "foo") (VStr "bar"))
             "foo" "bar"); reflexivity.
  - apply (proj1 (proj2 (add_accepts_numbers_or_strings (VInt 2)
                           (VFloat float_half)))
             (PyNum.NInt 2) (PyNum.NFloat float_half)); reflexivity.
  - apply (proj1 (proj2 (proj2 (add_accepts_numbers_or_strings (VBool true)
                                  (VInt 1))))); reflexivity.
  - apply (proj2 (proj2 (proj2 (add_accepts_numbers_or_strings VNone
                                  (VStr "x"))))); reflexivity.
Defined.

Example add_examples :
  lox_add (VInt 2) (VInt 3) = Ok (VInt 5)
  /\ lox_add (VInt 1) (VFloat float_half) = Ok (VFloat float_3_2)
  /\ lox_add (VStr "a") (VInt 1) = Raise LoxError None.
Proof. repeat split; vm_compute; reflexivity. Qed.

(** * Equality *)

Lemma py_type_eqb_refl (t : PyType) : py_type_eqb t t = true.
Proof. destruct t; reflexivity. Qed.

Lemma py_type_eqb_eq (s t : PyType) : py_type_eqb s t = true -> s = t.
Proof. destruct s, t; simpl; congruence. Qed.

(** Values of one Python type are of one variant: [type] separates more
    than the variants do ([int] from [float]). *)
Lemma py_type_variant (a b : Value) :
  py_type a = py_type b -> variant a = variant b.
Proof. destruct a, b; simpl; congruence. Qed.

(** [nan == nan] is false in the host, and [lox_eq] hands two floats to
    it: a value bound to NaN is not equal to itself. *)
Lemma nan_differs_from_itself :
  lox_eq no_reflection initial_state (VFloat PyNum.nan) (VFloat PyNum.nan)
  = false
  /\ run_program no_reflection 6
       [VarDef "x" (BinOp (Literal (LInt 0)) (Literal (LInt 0)) op_truediv);
        Print (BinOp (Var "x") (Var "x") op_eq)]
     = (Ok tt, ["false"]).
Proof. split; vm_compute; reflexivity. Qed.

(** C3, amended.  [lox_eq] relates every value other than NaN to itself;
    it is false on values of differing variants; and on two functions it
    is the identity test, whatever their fields. *)
Theorem lox_eq_reflexive_and_strict (host : Host) (st : State) :
  (forall v, v <> VFloat PyNum.nan -> lox_eq host st v v = true)
  /\ (forall a b, variant a <> variant b -> lox_eq host st a b = false)
  /\ (forall f g, lox_eq host st (VFunction f) (VFunction g)
                  = Nat.eqb (fn_id f) (fn_id g)).
Proof.
  split; [| split].
  - intros v Hnan. unfold lox_eq. rewrite py_type_eqb_refl. simpl.
    destruct v; unfold py_eq; simpl;
      rewrite ?Nat.eqb_refl, ?String.eqb_refl; try reflexivity.
    + apply PyNum_eq_self. congruence.
    + apply PyNum_eq_self. congruence.
    + apply PyNum_eq_self. unfold PyNum.nan in Hnan. congruence.
  - intros a b Hvar. unfold lox_eq.
    destruct (py_type_eqb (py_type a) (py_type b)) eqn:Ht; [| reflexivity].
    exfalso. apply Hvar, py_type_variant, py_type_eqb_eq, Ht.
  - intros f g. reflexivity.
Qed.

Lemma lox_eq_reflexive_and_strict_witness :
  lox_eq no_reflection initial_state (VInt 3) (VInt 3) = true
  /\ lox_eq no_reflection initial_state (VInt 1) (VStr "1") = false.
Proof.
  split.
  - apply (proj1 (lox_eq_reflexive_and_strict no_reflection initial_state)).
    discriminate.
  - apply (proj1 (proj2 (lox_eq_reflexive_and_strict no_reflection
                           initial_state))).
    discriminate.
Defined.

(** Two functions with the same name, parameters, body and closure are
    still two objects. *)
Example structurally_identical_functions (host : Host) (st : State)
    (f : LoxFunction) (i : nat) :
  i <> fn_id f ->
  lox_eq host st (VFunction f)
    (VFunction {| fn_id := i; fn_name := fn_name f;
                  fn_arg_names := fn_arg_names f; fn_body := fn_body f;
                  fn_ctx := fn_ctx f |})
  = false.
Proof.
  intros Hi. unfold lox_eq. simpl. apply Nat.eqb_neq. congruence.
Qed.

(** Within the variant of numbers, [type] still separates [int] from
    [float]: [1 == 1.0] is false in this implementation. *)
Example int_and_float_differ (host : Host) (st : State) :
  lox_eq host st (VInt 1) (VFloat (PyNum.exact_of_int 1)) = false.
Proof. reflexivity. Qed.

(** * The own-initializer check *)

(** When the search for the name succeeds, a declaration directly in a
    block is rejected. *)
Lemma self_reference_in_block_rejected (name : string) (value : Expr)
    (body : list Stmt) (rest : list Node) :
  is_reserved name = false ->
  _uses_variable_in_expression value name = true ->
  VarDef_validate_self name value (StmtNode (Block body) :: rest)
  = Raise SemanticError
      (Some "Can't read local variable in its own initializer.").
Proof.
  intros Hres Huse. unfold VarDef_validate_self.
  rewrite Hres, Huse. reflexivity.
Qed.

(** A declaration whose parent is the program is accepted, whatever its
    initializer reads. *)
Lemma self_reference_at_top_level_accepted (name : string) (value : Expr)
    (p : Program) :
  is_reserved name = false ->
  VarDef_validate_self name value [ProgramNode p] = Ok tt.
Proof.
  intros Hres. unfold VarDef_validate_self. rewrite Hres.
  destruct (_uses_variable_in_expression value name); reflexivity.
Qed.

(** The search never looks below [and] and [or]. *)
Lemma logical_operators_hide_uses (l r : Expr) (var_name : string) :
  _uses_variable_in_expression (And l r) var_name = false
  /\ _uses_variable_in_expression (Or l r) var_name = false.
Proof. split; reflexivity. Qed.

(** C9.  [_uses_variable_in_expression] has no case for [And] and [Or]:
    the declarations [var x = x and true;] and [var x = x or true;] pass
    [VarDef.validate_self] under every chain of parents, a block among
    them, where [var x = x;] in the same block is rejected (and accepted
    at top level); the accepted block then fails at run time, reading the
    undefined [x]. *)
Theorem own_initializer_check_misses_and_or (parents : list Node) :
  VarDef_validate_self "x" (And (Var "x") (Literal (LBool true)))
    (StmtNode (Block [VarDef "x" (And (Var "x") (Literal (LBool true)))])
     :: parents)
  = Ok tt
  /\ VarDef_validate_self "x" (Or (Var "x") (Literal (LBool true)))
       (StmtNode (Block [VarDef "x" (Or (Var "x") (Literal (LBool true)))])
        :: parents)
     = Ok tt
  /\ VarDef_validate_self "x" (Var "x")
       (StmtNode (Block [VarDef "x" (Var "x")]) :: parents)
     = Raise SemanticError
         (Some "Can't read local variable in its own initializer.")
  /\ VarDef_validate_self "x" (Var "x")
       [ProgramNode {| stmts := [VarDef "x" (Var "x")] |}]
     = Ok tt
  /\ outcome (Program_eval no_reflection 6
                {| stmts :=
                     [Block [VarDef "x"
                               (And (Var "x") (Literal (LBool true)))]] |}
                root_ctx initial_state)
     = Raise NameError None.
Proof. repeat split. Qed.

(** * Running the monad *)

Ltac run_monad :=
  unfold outcome, final_state, activation, try_except, m_bind, fresh, modify,
    raise, lift, m_ret;
  cbv beta iota.

Lemma Expr_eval_no_fuel (host : Host) (e : Expr) (ctx : Ctx) (st : State) :
  Expr_eval host 0 e ctx st = (OutOfFuel, st, 0).
Proof. reflexivity. Qed.

(** * The loop *)

(** [While.eval]: the condition, the body, then [self.eval(ctx)]. *)
Lemma While_eval_unfold (host : Host) (fuel : nat) (cond : Expr)
    (body : Stmt) (ctx : Ctx) :
  Stmt_eval host (S fuel) (While cond body) ctx
  = activation
      (m_bind (Expr_eval host fuel cond ctx) (fun c =>
         if is_lox_true c then
           m_bind (Stmt_eval host fuel body ctx) (fun _ =>
             Stmt_eval host fuel (While cond body) ctx)
         else m_ret tt)).
Proof. reflexivity. Qed.

Lemma count_iterations_unfold (host : Host) (fuel : nat) (cond : Expr)
    (body : Stmt) (ctx : Ctx) (st : State) :
  count_iterations host (S fuel) cond body ctx st
  = match Expr_eval host fuel cond ctx st with
    | (Ok c, st1, _) =>
        if is_lox_true c then
          match Stmt_eval host fuel body ctx st1 with
          | (Ok _, st2, _) => S (count_iterations host fuel cond body ctx st2)
          | _ => 0
          end
        else 0
    | _ => 0
    end.
Proof. reflexivity. Qed.

(** The same loop run to completion for 3 and for 10 iterations reaches
    different depths of the native stack: the depth is not independent of
    the number of iterations. *)
Lemma while_depth_depends_on_iterations :
  outcome (Stmt_eval no_reflection 20 (While (counting_cond 3) counting_body)
             root_ctx counter_state) = Ok tt
  /\ count_iterations no_reflection 20 (counting_cond 3) counting_body
       root_ctx counter_state = 3
  /\ stack_depth (Stmt_eval no_reflection 20
                    (While (counting_cond 3) counting_body)
                    root_ctx counter_state) = 6
  /\ outcome (Stmt_eval no_reflection 20
                (While (counting_cond 10) counting_body)
                root_ctx counter_state) = Ok tt
  /\ count_iterations no_reflection 20 (counting_cond 10) counting_body
       root_ctx counter_state = 10
  /\ stack_depth (Stmt_eval no_reflection 20
                    (While (counting_cond 10) counting_body)
                    root_ctx counter_state) = 13.
Proof. repeat split; vm_compute; reflexivity. Qed.

(** C1, amended.  [While.eval] calls itself after each iteration: an
    execution of the loop that performs [n] iterations nests at least
    [n + 1] activations, one per test of the condition. *)
Theorem while_depth_grows_with_iterations (host : Host) (fuel : nat)
    (cond : Expr) (body : Stmt) (ctx : Ctx) (st : State) :
  count_iterations host (S fuel) cond body ctx st + 1
  <= stack_depth (Stmt_eval host (S fuel) (While cond body) ctx st).
Proof.
  revert st. induction fuel as [| fuel IH]; intros st;
    rewrite count_iterations_unfold, While_eval_unfold;
    unfold activation, m_bind, stack_depth.
  - rewrite Expr_eval_no_fuel. cbv beta iota. unfold snd. lia.
  - destruct (Expr_eval host (S fuel) cond ctx st) as [[r st1] d1].
    destruct r as [c | | |]; cbv beta iota; unfold snd; try lia.
    destruct (is_lox_true c); cbv beta iota delta [m_ret]; try lia.
    destruct (Stmt_eval host (S fuel) body ctx st1) as [[r2 st2] d2].
    destruct r2 as [u | | |]; cbv beta iota; try lia.
    specialize (IH st2). unfold stack_depth in IH.
    destruct (Stmt_eval host (S fuel) (While cond body) ctx st2)
      as [[r3 st3] d3].
    unfold snd in IH. lia.
Qed.

(** The whole program [var i = 0; while (i < n) i = i + 1;] for 3 and
    for 10. *)
Example counting_program_depths :
  stack_depth (Program_eval no_reflection 30 {| stmts := counting_loop 3 |}
                 root_ctx initial_state) = 7
  /\ stack_depth (Program_eval no_reflection 30
                    {| stmts := counting_loop 10 |}
                    root_ctx initial_state) = 14.
Proof. split; vm_compute; reflexivity. Qed.

(** * Class declarations *)

(** [Class.eval]: the superclass under its two handlers, the context of
    the methods, the method table, the definition of the name. *)
Lemma Class_eval_unfold (host : Host) (fuel : nat) (name : string)
    (superclass : option Expr) (method_defs : list Stmt) (ctx : Ctx) :
  Stmt_eval host (S fuel) (Class name superclass method_defs) ctx
  = activation
      (m_bind
         match superclass with
         | None => m_ret None
         | Some e =>
             try_except
               (m_bind (Expr_eval host fuel e ctx) (fun v =>
                  match v with
                  | VClass c => m_ret (Some c)
                  | _ =>
                      raise RuntimeError (Some "Superclass must be a class.")
                  end))
               (fun exc =>
                  match exc with
                  | PyExc RuntimeError _ => reraise exc
                  | _ => m_ret None
                  end)
         end
         (fun base =>
            m_bind
              match base with
              | None => m_ret ctx
              | Some c =>
                  m_bind (child ctx) (fun mc =>
                    m_bind (var_def mc "super" (VClass c)) (fun _ =>
                      m_ret mc))
              end
              (fun method_ctx =>
                 m_bind (build_methods method_defs method_ctx ∅)
                   (fun methods =>
                      m_bind fresh (fun i =>
                        var_def ctx name
                          (VClass (MkLoxClass i name methods base))))))).
Proof. reflexivity. Qed.

(** A superclass expression that fails with [NameError] does not make
    the declaration fail: [class B < Undefined {}] declares [B] with no
    superclass, and the program goes on to print it. *)
Lemma undefined_superclass_is_dropped :
  outcome (Expr_eval no_reflection 2 (Var "Undefined") root_ctx initial_state)
  = Raise NameError None
  /\ run_program no_reflection 4
       [Class "B" (Some (Var "Undefined")) []; Print (Var "B")]
     = (Ok tt, ["B"])
  /\ chain_lookup
       (final_state
          (Stmt_eval no_reflection 3 (Class "B" (Some (Var "Undefined")) [])
             root_ctx initial_state)) [0] "B"
     = Some (VClass (MkLoxClass 1 "B" ∅ None)).
Proof. repeat split; vm_compute; reflexivity. Qed.

(** C7, amended.  A class declaration with a superclass expression fails
    with [RuntimeError] ("Superclass must be a class.") when the
    expression yields a value that is not a class, and with the same
    [RuntimeError] when the evaluation raises one; when the evaluation
    raises any other exception, the declaration goes on from the store
    the evaluation left exactly as the declaration without a superclass
    does. *)
Theorem superclass_failures (host : Host) (fuel : nat) (name : string)
    (e : Expr) (ms : list Stmt) (ctx : Ctx) (st : State) :
  (forall v, outcome (Expr_eval host fuel e ctx st) = Ok v ->
     (forall c, v <> VClass c) ->
     outcome (Stmt_eval host (S fuel) (Class name (Some e) ms) ctx st)
     = Raise RuntimeError (Some "Superclass must be a class."))
  /\ (forall msg,
        outcome (Expr_eval host fuel e ctx st) = Raise RuntimeError msg ->
        outcome (Stmt_eval host (S fuel) (Class name (Some e) ms) ctx st)
        = Raise RuntimeError msg)
  /\ (forall c msg,
        outcome (Expr_eval host fuel e ctx st) = Raise c msg ->
        c <> RuntimeError ->
        outcome (Stmt_eval host (S fuel) (Class name (Some e) ms) ctx st)
        = outcome (Stmt_eval host (S fuel) (Class name None ms) ctx
                     (final_state (Expr_eval host fuel e ctx st)))
        /\ final_state
             (Stmt_eval host (S fuel) (Class name (Some e) ms) ctx st)
           = final_state
               (Stmt_eval host (S fuel) (Class name None ms) ctx
                  (final_state (Expr_eval host fuel e ctx st)))).
Proof.
  rewrite !Class_eval_unfold.
  unfold outcome, final_state, activation, try_except, m_bind.
  cbv beta.
  destruct (Expr_eval host fuel e ctx st) as [[r st1] d1].
  cbn [fst snd].
  split; [| split].
  - intros v -> Hv.
    destruct v; try reflexivity. exfalso. eapply Hv. reflexivity.
  - intros msg ->. reflexivity.
  - intros c msg -> Hc.
    destruct c; try congruence; cbv beta iota delta [m_ret];
      match goal with
      | |- context [build_methods ms ctx ∅ st1] =>
          destruct (build_methods ms ctx ∅ st1) as [[r2 st2] d2]
      end;
      destruct r2; split; reflexivity.
Qed.

Lemma superclass_failures_witness :
  outcome (Stmt_eval no_reflection 3 (Class "B" (Some (Literal (LInt 1))) [])
             root_ctx initial_state)
  = Raise RuntimeError (Some "Superclass must be a class.")
  /\ outcome (Stmt_eval no_reflection 3 (Class "B" (Some (Var "Undefined")) [])
                root_ctx initial_state)
     = outcome (Stmt_eval no_reflection 3 (Class "B" None []) root_ctx
                  (final_state (Expr_eval no_reflection 2 (Var "Undefined")
                                  root_ctx initial_state))).
Proof.
  split.
  - apply (proj1 (superclass_failures no_reflection 2 "B" (Literal (LInt 1))
                    [] root_ctx initial_state) (VInt 1)).
    + vm_compute. reflexivity.
    + discriminate.
  - apply (proj2 (proj2 (superclass_failures no_reflection 2 "B"
                           (Var "Undefined") [] root_ctx initial_state))
             NameError None).
    + vm_compute. reflexivity.
    + discriminate.
Defined.

(** A [RuntimeError] raised inside the superclass expression is the one
    that leaves the declaration: with the class [A] declared, the
    superclass expression [A.x = 2] makes the declaration of [B] fail with
    "Only instances have fields.". *)
Example runtime_error_of_the_expression_propagates :
  outcome (Stmt_eval no_reflection 4
             (Class "B"
                (Some (Setattr (Var "A") "x" (Literal (LInt 2)))) [])
             root_ctx
             (final_state (Stmt_eval no_reflection 3 (Class "A" None [])
                             root_ctx initial_state)))
  = Raise RuntimeError (Some "Only instances have fields.").
Proof. vm_compute. reflexivity. Qed.

(** * Calling a class *)

(** [LoxClass.__call__]. *)
Lemma class_call_unfold (host : Host) (fuel : nat) (c : LoxClass)
    (args : list Value) :
  call host (S fuel) (VClass c) args
  = activation
      (m_bind fresh (fun a =>
         m_bind (modify (fun st =>
                   set_instances (<[a := ∅]> (instances st)) st)) (fun _ =>
           m_bind
             (try_except
                (m_bind (lift (get_method c "init")) (fun init_method =>
                   m_bind (bind init_method (VInstance a c))
                     (fun bound_init =>
                        m_bind (call host fuel (VFunction bound_init) args)
                          (fun _ => m_ret tt))))
                (fun _ =>
                   match args with
                   | [] => m_ret tt
                   | _ :: _ => raise TypeError None
                   end))
             (fun _ => m_ret (VInstance a c))))).
Proof. reflexivity. Qed.

(** When no class of the chain has the method, [get_method] raises. *)
Lemma get_method_without (c : LoxClass) (name : string) :
  Forall (fun k => class_methods k !! name = None) (inheritance_chain c) ->
  get_method c name = Raise SemanticError None.
Proof.
  revert c. fix IH 1. intros c.
  destruct c as [i n methods base]. cbn [inheritance_chain get_method].
  intros H. inversion H as [| k ks Hk Hks]; subst.
  cbn [class_methods] in Hk. rewrite Hk.
  destruct base as [b |]; [| reflexivity].
  apply IH, Hks.
Qed.

(** C8.  [LoxClass.__call__] first makes a new instance, an object
    without fields at the next free address.  When the class chain has
    an [init], the method is bound to that instance and called with the
    arguments; whatever value the call returns, the call of the class
    returns the instance, and the store is the one [init] left.  When no
    class of the chain has an [init], a call with arguments raises
    [TypeError] and a call without arguments returns the instance, the
    store holding the new instance and nothing else new.  No call of a
    class returns anything but that instance. *)
Theorem class_call_returns_the_instance (host : Host) (fuel : nat)
    (c : LoxClass) (args : list Value) (st : State) :
  let instance := VInstance (next_id st) c in
  let st_new :=
    {| frames := frames st;
       instances := <[next_id st := ∅]> (instances st);
       next_id := S (next_id st);
       stdout := stdout st |} in
  (forall init_method bound_init st_bound w st_init d,
     get_method c "init" = Ok init_method ->
     bind init_method instance st_new = (Ok bound_init, st_bound, 0) ->
     call host fuel (VFunction bound_init) args st_bound
     = (Ok w, st_init, d) ->
     call host (S fuel) (VClass c) args st = (Ok instance, st_init, S d))
  /\ (Forall (fun k => class_methods k !! "init" = None)
        (inheritance_chain c) ->
      args <> [] ->
      call host (S fuel) (VClass c) args st
      = (Raise TypeError None, st_new, 1))
  /\ (Forall (fun k => class_methods k !! "init" = None)
        (inheritance_chain c) ->
      args = [] ->
      call host (S fuel) (VClass c) args st = (Ok instance, st_new, 1))
  /\ (forall v, outcome (call host (S fuel) (VClass c) args st) = Ok v ->
      v = instance).
Proof.
  intros instance st_new. subst instance st_new.
  rewrite class_call_unfold.
  split; [| split; [| split]].
  - intros f b stb w st' d Hf Hb Hcall. run_monad.
    unfold set_instances. cbn [frames instances next_id stdout].
    rewrite Hf. cbv beta iota. rewrite Hb. cbv beta iota.
    rewrite Hcall. cbv beta iota.
    rewrite ?Nat.max_0_r, ?Nat.max_0_l. reflexivity.
  - intros Hno Hargs. run_monad.
    rewrite (get_method_without _ _ Hno).
    destruct args; [congruence | reflexivity].
  - intros Hno ->. run_monad.
    rewrite (get_method_without _ _ Hno). reflexivity.
  - intros v. run_monad.
    destruct (get_method c "init") as [f | | |]; cbn [fst].
    + match goal with
      | |- context [bind f ?i ?s] => destruct (bind f i s) as [[rb stb] db]
      end.
      destruct rb as [b | | |]; cbn [fst].
      * destruct (call host fuel (VFunction b) args stb) as [[rc stc] dc].
        destruct rc; destruct args; cbn [fst]; congruence.
      * destruct args; cbn [fst]; congruence.
      * destruct args; cbn [fst]; congruence.
      * congruence.
    + destruct args; cbn [fst]; congruence.
    + destruct args; cbn [fst]; congruence.
    + congruence.
Qed.

(** Evaluates the left-hand side of an equation whose right-hand side is
    still to be determined. *)
Ltac compute_lhs :=
  match goal with
  | |- ?l = ?r =>
      let v := eval vm_compute in l in
      unify r v; vm_compute; reflexivity
  end.

Lemma class_call_returns_the_instance_witness :
  (exists st_init d,
     call no_reflection 7 (VClass class_C) [VInt 4] class_state
     = (Ok (VInstance 5 class_C), st_init, S d)
     /\ fields_of st_init 5 !! "x" = Some (VInt 4)
     /\ next_id st_init = 9)
  /\ call no_reflection 7 (VClass class_D) [VInt 4] class_state
     = (Raise TypeError None,
        {| frames := frames class_state;
           instances := <[5 := ∅]> (instances class_state);
           next_id := 6; stdout := [] |}, 1)
  /\ call no_reflection 7 (VClass class_D) [] class_state
     = (Ok (VInstance 5 class_D),
        {| frames := frames class_state;
           instances := <[5 := ∅]> (instances class_state);
           next_id := 6; stdout := [] |}, 1).
Proof.
  split; [| split].
  - do 2 eexists. split.
    + eapply (proj1 (class_call_returns_the_instance no_reflection 6 class_C
                       [VInt 4] class_state)).
      * compute_lhs.
      * compute_lhs.
      * compute_lhs.
    + split; vm_compute; reflexivity.
  - apply (proj1 (proj2 (class_call_returns_the_instance no_reflection 6
                           class_D [VInt 4] class_state))).
    + repeat constructor.
    + discriminate.
  - apply (proj1 (proj2 (proj2 (class_call_returns_the_instance no_reflection
                                  6 class_D [] class_state)))).
    + repeat constructor.
    + reflexivity.
Defined.

(** [init(x) { this.x = x; return 1; }] ran: the new instance has the
    field, and the 1 is dropped. *)
Example init_ran_and_its_result_is_dropped :
  outcome (call no_reflection 7 (VClass class_C) [VInt 4] class_state)
  = Ok (VInstance 5 class_C)
  /\ fields_of
       (final_state (call no_reflection 7 (VClass class_C) [VInt 4]
                       class_state)) 5 !! "x"
     = Some (VInt 4)
  /\ instances class_state !! 5 = None.
Proof. repeat split; vm_compute; reflexivity. Qed.

(** The same through the evaluator:
    [class C { init(x) { this.x = x; return 1; } } var c = C(4);
     print c; print c.x; print c.init(5);] *)
Example scenario_init_returns :
  run_program no_reflection 12
    [Class "C" None
       [Function "init" ["x"]
          [ExprStmt (Setattr This "x" (Var "x"));
           Return (Literal (LInt 1))]];
     VarDef "c" (Call (Var "C") [Literal (LInt 4)]);
     Print (Var "c");
     Print (Getattr (Var "c") "x");
     Print (Call (Getattr (Var "c") "init") [Literal (LInt 5)])]
  = (Ok tt, ["C instance"; "4"; "C instance"]).
Proof. vm_compute. reflexivity. Qed.
(** * Method resolution *)

(** X1.  [LoxClass.get_method] returns the method of the first class of the
    inheritance chain that defines the name, so that a class's own method
    hides the inherited one; it raises [SemanticError] exactly when no
    class of the chain defines the name, and ends in no other way. *)
Theorem get_method_resolution (c : LoxClass) (name : string) :
  (forall f, get_method c name = Ok f <->
     exists l1 k l2,
       inheritance_chain c = (l1 ++ k :: l2)%list
       /\ Forall (fun k' => class_methods k' !! name = None) l1
       /\ class_methods k !! name = Some f)
  /\ (get_method c name = Raise SemanticError None <->
      Forall (fun k => class_methods k !! name = None) (inheritance_chain c))
  /\ (forall v, get_method c name <> LoxReturn v)
  /\ get_method c name <> OutOfFuel.
Proof.
  revert c. fix IH 1. intros c.
  destruct c as [i n methods base].
  cbn [inheritance_chain get_method].
  destruct (methods !! name) as [g |] eqn:Hown.
  - split; [| split; [| split]]; try discriminate.
    + intros f. split.
      * intros [= <-]. exists [], (MkLoxClass i n methods base).
        eexists. split; [reflexivity |]. split; [constructor | exact Hown].
      * intros (l1 & k & l2 & Hchain & Hl1 & Hk).
        destruct l1 as [| k1 l1].
        -- injection Hchain as <- _. cbn [class_methods] in Hk. congruence.
        -- injection Hchain as <- _. inversion Hl1 as [| ? ? Hk1 _]; subst.
           cbn [class_methods] in Hk1. congruence.
    + split; [discriminate |].
      intros H. inversion H as [| ? ? Hk _]; subst.
      cbn [class_methods] in Hk. congruence.
  - destruct base as [b |].
    + destruct (IH b) as (Hok & Hmiss & Hret & Hfuel).
      split; [| split; [| split]]; try assumption.
      * intros f. rewrite Hok. split.
        -- intros (l1 & k & l2 & Hchain & Hl1 & Hk).
           exists (MkLoxClass i n methods (Some b) :: l1), k, l2.
           split; [rewrite Hchain; reflexivity |].
           split; [constructor; [exact Hown | exact Hl1] | exact Hk].
        -- intros (l1 & k & l2 & Hchain & Hl1 & Hk).
           destruct l1 as [| k1 l1].
           ++ injection Hchain as <- _. cbn [class_methods] in Hk. congruence.
           ++ injection Hchain as _ Hchain. inversion Hl1; subst.
              exists l1, k, l2. auto.
      * rewrite Hmiss. split.
        -- intros H. constructor; [exact Hown | exact H].
        -- intros H. inversion H; subst. assumption.
    + split; [| split; [| split]]; try discriminate.
      * intros f. split; [discriminate |].
        intros (l1 & k & l2 & Hchain & Hl1 & Hk).
        destruct l1 as [| k1 l1].
        -- injection Hchain as <- _. cbn [class_methods] in Hk. congruence.
        -- injection Hchain as _ Hchain. destruct l1; discriminate.
      * split; [| reflexivity]. intros _.
        constructor; [exact Hown | constructor].
Qed.

(** * More on the operators *)

Lemma SFopp_involutive (f : spec_float) : SFopp (SFopp f) = f.
Proof. destruct f; simpl; rewrite ?negb_involutive; reflexivity. Qed.

(** X2.  Away from zero [lox_neg] is an involution on the Lox numbers: the
    negation of a non-zero [int] or [float] is a value whose negation is
    the operand again (NaN included, which negation leaves alone). *)
Theorem neg_is_an_involution_away_from_zero (value : Value) (n : PyNum.Num) :
  is_number value = true ->
  as_number value = Some n ->
  PyNum.is_zero n = false ->
  exists w, lox_neg value = Ok w /\ lox_neg w = Ok value.
Proof.
  intros Hnum Hn Hz.
  destruct value as [| b | z | f | s | g | c | a c | i c | i a c];
    try discriminate Hnum; injection Hn as <-; unfold lox_neg; simpl;
    simpl in Hz; rewrite Hz.
  - exists (VInt (- z)). split; [reflexivity |]. simpl.
    assert (Hz' : (- z =? 0)%Z = false).
    { apply Z.eqb_neq. apply Z.eqb_neq in Hz. lia. }
    rewrite Hz'. rewrite Z.opp_involutive. reflexivity.
  - exists (VFloat (SFopp f)). split; [reflexivity |]. simpl.
    assert (Hz' : match SFopp f with S754_zero _ => true | _ => false end
                  = false) by (destruct f; simpl in *; congruence).
    rewrite Hz'. rewrite SFopp_involutive. reflexivity.
Qed.

Lemma neg_is_an_involution_away_from_zero_witness :
  exists w, lox_neg (VFloat float_half) = Ok w
            /\ lox_neg w = Ok (VFloat float_half).
Proof.
  apply (neg_is_an_involution_away_from_zero (VFloat float_half)
           (PyNum.NFloat float_half)); reflexivity.
Defined.

(** X3.  Whatever [lox_truediv] returns is a [float]; as [lox_eq] separates
    [float] from [int] and [bool] by type, a quotient is never equal to
    an integer: [4 / 2 == 2] is false. *)
Theorem quotient_never_equals_an_int (host : Host) (st : State)
    (left right q : Value) :
  lox_truediv left right = Ok q ->
  (exists f, q = VFloat f)
  /\ (forall z, lox_eq host st q (VInt z) = false)
  /\ (forall b, lox_eq host st q (VBool b) = false).
Proof.
  intros Hq.
  assert (Hf : exists f, q = VFloat f).
  { unfold lox_truediv in Hq.
    destruct (as_number left) as [a |]; [| discriminate].
    destruct (as_number right) as [b |]; [| discriminate].
    destruct (PyNum.is_zero b) eqn:Hz.
    - injection Hq as <-. eauto.
    - unfold PyNum.truediv in Hq. rewrite Hz in Hq.
      destruct a as [x | x], b as [y | y]; simpl in Hq.
      + destruct (SFdiv PyNum.prec PyNum.emax (PyNum.exact_of_int x)
                    (PyNum.exact_of_int y));
          try discriminate; injection Hq as <-; eauto.
      + destruct (PyNum.float_of_int x) as [e | fx]; simpl in Hq;
          [destruct e; discriminate | injection Hq as <-; eauto].
      + destruct (PyNum.float_of_int y) as [e | fy]; simpl in Hq;
          [destruct e; discriminate | injection Hq as <-; eauto].
      + injection Hq as <-. eauto. }
  split; [exact Hf |].
  destruct Hf as [f ->]. split; intros; reflexivity.
Qed.

Lemma quotient_never_equals_an_int_witness :
  (exists f, VFloat (S754_finite false 4503599627370496 (-51)) = VFloat f)
  /\ (forall z, lox_eq no_reflection initial_state
                  (VFloat (S754_finite false 4503599627370496 (-51)))
                  (VInt z) = false)
  /\ (forall b, lox_eq no_reflection initial_state
                  (VFloat (S754_finite false 4503599627370496 (-51)))
                  (VBool b) = false).
Proof.
  apply (quotient_never_equals_an_int no_reflection initial_state
           (VInt 4) (VInt 2)).
  vm_compute. reflexivity.
Defined.

Lemma SFcompare_antisym (x y : spec_float) :
  SFcompare y x = option_map CompOpp (SFcompare x y).
Proof.
  destruct x as [s1 | s1 | | s1 m1 e1], y as [s2 | s2 | | s2 m2 e2];
    simpl; try reflexivity;
    try (destruct s1; reflexivity); try (destruct s2; reflexivity);
    try (destruct s1, s2; reflexivity).
  f_equal. rewrite (Z.compare_antisym e1 e2).
  change (Pos.compare_cont Eq m2 m1) with (Pos.compare m2 m1).
  change (Pos.compare_cont Eq m1 m2) with (Pos.compare m1 m2).
  rewrite (Pos.compare_antisym m1 m2).
  destruct s1, s2; try reflexivity;
    destruct (e1 ?= e2)%Z; simpl; try reflexivity;
    destruct (m1 ?= m2)%positive; reflexivity.
Qed.

Lemma PyNum_compare_antisym (a b : PyNum.Num) :
  PyNum.compare b a = option_map CompOpp (PyNum.compare a b).
Proof.
  destruct a as [x | x], b as [y | y]; simpl.
  - rewrite (Z.compare_antisym x y). reflexivity.
  - reflexivity.
  - destruct (PyNum.compare_int_float y x) as [c |]; simpl;
      [destruct c |]; reflexivity.
  - apply SFcompare_antisym.
Qed.

(** X4.  The comparison operators mirror each other: [a > b] is [b < a] and
    [a >= b] is [b <= a], outcome for outcome, for all operands (on
    operands that are not numbers both sides raise [LoxError]). *)
Theorem comparisons_mirror (left right : Value) :
  lox_gt left right = lox_lt right left
  /\ lox_ge left right = lox_le right left.
Proof.
  unfold lox_gt, lox_lt, lox_ge, lox_le, lox_compare.
  destruct (as_number left) as [a |], (as_number right) as [b |];
    try (split; reflexivity).
  unfold PyNum.gt, PyNum.lt, PyNum.ge, PyNum.le.
  rewrite (PyNum_compare_antisym b a).
  destruct (PyNum.compare b a) as [c |]; simpl; [destruct c |];
    split; reflexivity.
Qed.

(** X5.  On operands that pass the number test (booleans do, as 1 and 0) the
    comparisons never raise, whatever the size of an [int]; [<=] is
    [<] or equal by value, [>=] is [>] or equal by value; at most one of
    [<], equal, [>] holds, and none of them holds exactly when the host
    finds the operands unordered, which is when one of them is NaN. *)
Theorem comparisons_on_numbers (left right : Value) (a b : PyNum.Num) :
  as_number left = Some a ->
  as_number right = Some b ->
  lox_lt left right = Ok (VBool (PyNum.lt a b))
  /\ lox_gt left right = Ok (VBool (PyNum.gt a b))
  /\ lox_le left right = Ok (VBool (PyNum.lt a b || PyNum.eq a b))
  /\ lox_ge left right = Ok (VBool (PyNum.gt a b || PyNum.eq a b))
  /\ (PyNum.lt a b && PyNum.gt a b = false)
  /\ (PyNum.lt a b && PyNum.eq a b = false)
  /\ (PyNum.gt a b && PyNum.eq a b = false)
  /\ (PyNum.lt a b || PyNum.eq a b || PyNum.gt a b = false
      <-> PyNum.compare a b = None)
  /\ (PyNum.compare a b = None
      <-> a = PyNum.NFloat S754_nan \/ b = PyNum.NFloat S754_nan).
Proof.
  intros Ha Hb.
  unfold lox_lt, lox_gt, lox_le, lox_ge, lox_compare. rewrite Ha, Hb.
  unfold PyNum.lt, PyNum.gt, PyNum.le, PyNum.ge, PyNum.eq.
  assert (Hnan : PyNum.compare a b = None
                 <-> a = PyNum.NFloat S754_nan \/ b = PyNum.NFloat S754_nan).
  { destruct a as [x | x], b as [y | y]; simpl.
    - split; [discriminate | intros [H | H]; discriminate].
    - unfold PyNum.compare_int_float.
      destruct y as [s | s | | s m e]; try destruct s;
        try (destruct (0 <=? e)%Z);
        (split; [try discriminate; auto | intros [H | H]; try discriminate;
                                          try reflexivity]).
    - unfold PyNum.compare_int_float.
      destruct x as [s | s | | s m e]; try destruct s;
        try (destruct (0 <=? e)%Z); simpl;
        (split; [try discriminate; auto | intros [H | H]; try discriminate;
                                          try reflexivity]).
    - destruct x as [s1 | s1 | | s1 m1 e1], y as [s2 | s2 | | s2 m2 e2];
        simpl;
        (split; [try discriminate; auto | intros [H | H]; try discriminate;
                                          try reflexivity]). }
  destruct (PyNum.compare a b) as [c |] eqn:Hc; [destruct c |]; simpl;
    repeat split; try reflexivity; try discriminate; try tauto;
    try (intros _; apply Hnan; reflexivity);
    try (intros H; apply Hnan in H; discriminate).
Qed.

Lemma comparisons_on_numbers_witness :
  lox_lt (VBool true) (VInt (10 ^ 400)) = Ok (VBool true)
  /\ lox_le (VFloat PyNum.nan) (VInt 1) = Ok (VBool false).
Proof.
  split.
  - apply (proj1 (comparisons_on_numbers (VBool true) (VInt (10 ^ 400))
                    (PyNum.NInt 1) (PyNum.NInt (10 ^ 400))
                    eq_refl eq_refl)).
  - apply (proj1 (proj2 (proj2 (comparisons_on_numbers (VFloat PyNum.nan)
                                  (VInt 1) (PyNum.NFloat PyNum.nan)
                                  (PyNum.NInt 1) eq_refl eq_refl)))).
Defined.

(** X6.  [lox_eq] on values of one simple type is equality of the values:
    two [int]s, two strings or two booleans are equal exactly when they
    are the same, and [nil] equals [nil]. *)
Theorem equality_by_value (host : Host) (st : State) :
  (forall x y : Z, lox_eq host st (VInt x) (VInt y) = true <-> x = y)
  /\ (forall a b : string, lox_eq host st (VStr a) (VStr b) = true <-> a = b)
  /\ (forall a b : bool, lox_eq host st (VBool a) (VBool b) = true <-> a = b)
  /\ lox_eq host st VNone VNone = true.
Proof.
  unfold lox_eq, py_eq. cbn.
  split; [| split; [| split]]; try reflexivity.
  - intros x y. unfold PyNum.eq, PyNum.compare.
    destruct (Z.compare x y) eqn:Hc.
    + apply Z.compare_eq_iff in Hc. tauto.
    + split; [discriminate |]. intros ->. rewrite Z.compare_refl in Hc.
      discriminate.
    + split; [discriminate |]. intros ->. rewrite Z.compare_refl in Hc.
      discriminate.
  - intros a b. apply String.eqb_eq.
  - intros a b. destruct a, b; cbn; split; congruence.
Qed.

(** * Duplicate declarations ([Block.validate_self],
      [Function.validate_self]) *)

Lemma remove_dups_length_le (l : list string) :
  length (remove_dups l) <= length l.
Proof.
  induction l as [| x l IH]; simpl; [lia |].
  destruct (decide_rel elem_of x l); simpl; lia.
Qed.

Lemma remove_dups_length_NoDup (l : list string) :
  length (remove_dups l) = length l <-> NoDup l.
Proof.
  induction l as [| x l IH]; simpl.
  - split; [constructor | reflexivity].
  - pose proof (remove_dups_length_le l) as Hle.
    destruct (decide_rel elem_of x l) as [Hin | Hout]; simpl.
    + split; [lia |]. intros H. apply NoDup_cons in H as [H _]. tauto.
    + split.
      * intros H. apply NoDup_cons. split; [exact Hout |].
        apply IH. lia.
      * intros H. apply NoDup_cons in H as [_ H]. apply IH in H. lia.
Qed.

Lemma first_duplicate_None (seen names : list string) :
  first_duplicate seen names = None <->
  NoDup names /\ forall x, x ∈ names -> x ∉ seen.
Proof.
  revert seen. induction names as [| n names IH]; intros seen; simpl.
  - split; [| reflexivity]. intros _. split; [constructor |].
    intros x Hx. inversion Hx.
  - destruct (bool_decide (n ∈ seen)) eqn:Hn.
    + apply bool_decide_eq_true in Hn. split; [discriminate |].
      intros [_ H]. exfalso. apply (H n); [left | exact Hn].
    + apply bool_decide_eq_false in Hn. rewrite IH. split.
      * intros [Hnd Hseen]. split.
        -- apply NoDup_cons. split; [| exact Hnd].
           intros Hin. apply (Hseen n Hin). left.
        -- intros x Hx Hs. apply elem_of_cons in Hx as [-> | Hx];
             [exact (Hn Hs) |]. apply (Hseen x Hx). right. exact Hs.
      * intros [Hnd Hseen]. apply NoDup_cons in Hnd as [Hn' Hnd].
        split; [exact Hnd |].
        intros x Hx Hs. apply elem_of_cons in Hs as [-> | Hs];
          [exact (Hn' Hx) |]. apply (Hseen x); [right; exact Hx | exact Hs].
Qed.

Lemma check_duplicates_spec (names : list string) :
  (NoDup names -> check_duplicates names = Ok tt)
  /\ (~ NoDup names ->
      check_duplicates names
      = Raise SemanticError
          (Some "Already a variable with this name in this scope.")).
Proof.
  unfold check_duplicates. split; intros H.
  - apply remove_dups_length_NoDup in H. rewrite H, Nat.eqb_refl.
    reflexivity.
  - destruct (Nat.eqb (length names) (length (remove_dups names))) eqn:Hlen.
    + apply Nat.eqb_eq in Hlen. exfalso. apply H.
      apply remove_dups_length_NoDup. congruence.
    + simpl. destruct (first_duplicate [] names) eqn:Hf; [reflexivity |].
      apply first_duplicate_None in Hf as [Hnd _]. contradiction.
Qed.

(** X7.  [Block.validate_self] accepts a block exactly when the names of the
    [var] declarations directly in it are pairwise distinct, and rejects
    every other block with the "Already a variable" error; declarations
    inside nested statements are not looked at. *)
Theorem block_accepts_distinct_declarations (stmts : list Stmt) :
  (Block_validate_self stmts = Ok tt <-> NoDup (var_names stmts))
  /\ (Block_validate_self stmts
      = Raise SemanticError
          (Some "Already a variable with this name in this scope.")
      <-> ~ NoDup (var_names stmts)).
Proof.
  unfold Block_validate_self.
  destruct (check_duplicates_spec (var_names stmts)) as [Hok Hbad].
  destruct (decide (NoDup (var_names stmts))) as [Hnd | Hnd].
  - rewrite (Hok Hnd). split; split; try tauto; discriminate.
  - rewrite (Hbad Hnd). split; split; try tauto; try discriminate.
Qed.

Example block_declarations :
  Block_validate_self
    [VarDef "a" (Literal LNone); Print (Var "a"); VarDef "a" (Literal LNone)]
  = Raise SemanticError
      (Some "Already a variable with this name in this scope.")
  /\ Block_validate_self
       [VarDef "a" (Literal LNone);
        Block [VarDef "a" (Literal LNone)]]
     = Ok tt.
Proof. split; vm_compute; reflexivity. Qed.

Lemma existsb_is_reserved (names : list string) :
  existsb is_reserved names = false <->
  Forall (fun n => n ∉ RESERVED_WORDS) names.
Proof.
  induction names as [| n names IH]; simpl.
  - split; [constructor | reflexivity].
  - rewrite orb_false_iff, IH, Forall_cons.
    assert (Hn : is_reserved n = false <-> n ∉ RESERVED_WORDS).
    { unfold is_reserved. generalize RESERVED_WORDS. intros l.
      induction l as [| w l IHl]; simpl.
      - split; [intros _ H; inversion H | reflexivity].
      - rewrite orb_false_iff, IHl, not_elem_of_cons.
        rewrite String.eqb_neq. tauto. }
    rewrite Hn. tauto.
Qed.

Lemma check_vardefs_head (body : list Stmt) (params : list string)
    (name : string) (value : Expr) :
  _check_vardefs_in_body body params = Ok tt ->
  VarDef name value ∈ body -> name ∉ params.
Proof.
  induction body as [| s body IH]; intros Hok Hin; [inversion Hin |].
  simpl in Hok.
  destruct (check_vardefs_in_stmt s params) eqn:Hs; try discriminate.
  apply elem_of_cons in Hin as [<- | Hin]; [| exact (IH Hok Hin)].
  simpl in Hs. destruct (bool_decide (name ∈ params)) eqn:Hn;
    [discriminate |]. apply bool_decide_eq_false in Hn. exact Hn.
Qed.

(** X8.  [Function.validate_self] reports errors in a fixed order: repeated
    parameters first, then a parameter that is a reserved word; a
    function it accepts has pairwise distinct parameters, none of them
    reserved, and no [var] declaration directly in its body that
    redeclares a parameter. *)
Theorem function_validation (arg_names : list string) (body : list Stmt) :
  (~ NoDup arg_names ->
   Function_validate_self arg_names body
   = Raise SemanticError
       (Some "Already a variable with this name in this scope."))
  /\ (NoDup arg_names ->
      Exists (fun n => n ∈ RESERVED_WORDS) arg_names ->
      Function_validate_self arg_names body
      = Raise SemanticError (Some "Expect variable name."))
  /\ (Function_validate_self arg_names body = Ok tt ->
      NoDup arg_names
      /\ Forall (fun n => n ∉ RESERVED_WORDS) arg_names
      /\ forall name value, VarDef name value ∈ body -> name ∉ arg_names).
Proof.
  unfold Function_validate_self.
  destruct (check_duplicates_spec arg_names) as [Hok Hbad].
  split; [| split].
  - intros Hnd. rewrite (Hbad Hnd). reflexivity.
  - intros Hnd Hres. rewrite (Hok Hnd).
    destruct (existsb is_reserved arg_names) eqn:He; [reflexivity |].
    apply existsb_is_reserved in He. apply Exists_exists in Hres.
    destruct Hres as (n & Hn & Hr). rewrite Forall_forall in He.
    exfalso. exact (He n Hn Hr).
  - intros H. destruct (decide (NoDup arg_names)) as [Hnd | Hnd].
    + rewrite (Hok Hnd) in H.
      destruct (existsb is_reserved arg_names) eqn:He; [discriminate |].
      apply existsb_is_reserved in He.
      split; [exact Hnd |]. split; [exact He |].
      intros name value Hin.
      exact (check_vardefs_head _ _ _ _ H Hin).
    + rewrite (Hbad Hnd) in H. discriminate.
Qed.

Lemma function_validation_witness :
  Function_validate_self ["x"; "this"; "x"] []
  = Raise SemanticError
      (Some "Already a variable with this name in this scope.")
  /\ Function_validate_self ["x"; "this"] []
     = Raise SemanticError (Some "Expect variable name.").
Proof.
  split.
  - apply (proj1 (function_validation ["x"; "this"; "x"] [])).
    intros H. apply NoDup_cons in H as [H _]. apply H.
    right. left.
  - apply (proj1 (proj2 (function_validation ["x"; "this"] []))).
    + apply (bool_decide_unpack _). vm_compute. exact I.
    + right. left. apply (bool_decide_unpack _). vm_compute. exact I.
Defined.

(** The search of [_check_vardefs_in_body] goes through nested blocks but
    not through the branches of [if] or the body of [while]. *)
Example function_body_declarations :
  Function_validate_self ["x"] [Block [VarDef "x" (Literal LNone)]]
  = Raise SemanticError
      (Some "Already a variable with this name in this scope.")
  /\ Function_validate_self ["x"]
       [While (Literal (LBool true)) (Block [VarDef "x" (Literal LNone)])]
     = Ok tt.
Proof. split; vm_compute; reflexivity. Qed.

(** * Fields and initializers *)

(** X9.  [LoxInstance.set] followed by [LoxInstance.get]: the value stored is
    the value read, whether or not the class has a method of that name (a
    field hides a method); the read changes nothing; the write touches
    no other field of the instance, no other instance, no scope and no
    output. *)
Theorem field_set_then_get (a : nat) (c : LoxClass) (name : string)
    (value : Value) (st : State) :
  get a c name (final_state (set a name value st))
  = (Ok value, final_state (set a name value st), 0)
  /\ (forall other, other <> name ->
        fields_of (final_state (set a name value st)) a !! other
        = fields_of st a !! other)
  /\ (forall b, b <> a ->
        fields_of (final_state (set a name value st)) b = fields_of st b)
  /\ frames (final_state (set a name value st)) = frames st
  /\ stdout (final_state (set a name value st)) = stdout st.
Proof.
  unfold set, modify, final_state. cbn [fst snd].
  split; [| split; [| split; [| split]]]; try reflexivity.
  - unfold get, m_bind, get_state, m_ret. cbv beta iota.
    unfold fields_of, set_instances. cbn [instances].
    rewrite lookup_insert_eq. cbn [from_option id].
    rewrite lookup_insert_eq. reflexivity.
  - intros other Hother. unfold fields_of at 1, set_instances.
    cbn [instances]. rewrite lookup_insert_eq. cbn [from_option id].
    rewrite lookup_insert_ne by congruence. reflexivity.
  - intros b Hb. unfold fields_of, set_instances. cbn [instances].
    rewrite lookup_insert_ne by congruence. reflexivity.
Qed.

(** [LoxFunction.__call__]. *)
Lemma function_call_unfold (host : Host) (fuel : nat) (f : LoxFunction)
    (args : list Value) :
  call host (S fuel) (VFunction f) args
  = activation
      (if negb (Nat.eqb (length (fn_arg_names f)) (length args)) then
         raise TypeError None
       else
         m_bind (new_Ctx (dict_zip (fn_arg_names f) args) (fn_ctx f))
           (fun ctx =>
              try_except
                (m_bind (for_each (fun stmt => Stmt_eval host fuel stmt ctx)
                           (fn_body f))
                   (fun _ => m_ret VNone))
                (fun e =>
                   match e with
                   | ReturnSignal value => m_ret value
                   | _ => reraise e
                   end))).
Proof. reflexivity. Qed.

(** [LoxInstance.init], behind the lambda that [get] returns. *)
Lemma init_lambda_unfold (host : Host) (fuel : nat) (i a : nat)
    (c : LoxClass) (args : list Value) :
  call host (S fuel) (VInitLambda i a c) args
  = activation
      (activation
         (try_except
            (m_bind (lift (get_method c "init")) (fun init_method =>
               m_bind (bind init_method (VInstance a c)) (fun bound_init =>
                 m_bind (call host fuel (VFunction bound_init) args)
                   (fun _ => m_ret (VInstance a c)))))
            (fun _ => m_ret (VInstance a c)))).
Proof. reflexivity. Qed.

(** A call with the wrong number of arguments raises [TypeError] before
    anything else happens. *)
Lemma function_call_arity (host : Host) (fuel : nat) (f : LoxFunction)
    (args : list Value) (st : State) :
  length (fn_arg_names f) <> length args ->
  call host (S fuel) (VFunction f) args st = (Raise TypeError None, st, 1).
Proof.
  intros Hlen. rewrite function_call_unfold.
  apply Nat.eqb_neq in Hlen. rewrite Hlen. reflexivity.
Qed.

(** [LoxFunction.bind] always succeeds, and the bound function has the
    name, the parameters and the body of the method. *)
Lemma bind_ok (f : LoxFunction) (obj : Value) (st : State) :
  exists b st',
    bind f obj st = (Ok b, st', 0)
    /\ fn_name b = fn_name f
    /\ fn_arg_names b = fn_arg_names f
    /\ fn_body b = fn_body f
    /\ stdout st' = stdout st.
Proof.
  unfold bind, child, new_Ctx, var_def. run_monad.
  do 2 eexists. split; [reflexivity |]. repeat split.
Qed.

(** X10.  Calling [init] through an instance (the lambda of [LoxInstance.get]
    around [LoxInstance.init]) gives the instance and never raises:
    when the class has no [init], and also when the call of [init]
    fails, as it does on a wrong number of arguments, the bare [except]
    of [LoxInstance.init] returns the instance. *)
Theorem init_through_instance (host : Host) (fuel : nat) (i a : nat)
    (c : LoxClass) (args : list Value) (st : State) :
  (outcome (call host (S fuel) (VInitLambda i a c) args st)
   = Ok (VInstance a c)
   \/ outcome (call host (S fuel) (VInitLambda i a c) args st) = OutOfFuel)
  /\ (Forall (fun k => class_methods k !! "init" = None)
        (inheritance_chain c) ->
      outcome (call host (S fuel) (VInitLambda i a c) args st)
      = Ok (VInstance a c))
  /\ (forall f, get_method c "init" = Ok f ->
        length (fn_arg_names f) <> length args ->
        outcome (call host (S (S fuel)) (VInitLambda i a c) args st)
        = Ok (VInstance a c)).
Proof.
  split; [| split].
  - rewrite init_lambda_unfold. run_monad.
    destruct (get_method c "init") as [f | | |]; cbn [fst]; auto.
    destruct (bind f (VInstance a c) st) as [[rb stb] db].
    destruct rb as [b | | |]; cbn [fst]; auto.
    destruct (call host fuel (VFunction b) args stb) as [[rc stc] dc].
    destruct rc; cbn [fst]; auto.
  - intros Hno. rewrite init_lambda_unfold. run_monad.
    rewrite (get_method_without _ _ Hno). reflexivity.
  - intros f Hf Hlen. rewrite init_lambda_unfold. run_monad. rewrite Hf.
    destruct (bind_ok f (VInstance a c) st)
      as (b & stb & Hb & _ & Hargs & _ & _).
    rewrite Hb. cbv beta iota.
    rewrite function_call_arity by congruence. reflexivity.
Qed.

Lemma init_through_instance_witness :
  outcome (call no_reflection 2 (VInitLambda 9 5 class_D) [VInt 1]
             class_state)
  = Ok (VInstance 5 class_D)
  /\ outcome (call no_reflection 2 (VInitLambda 9 5 class_C) [] class_state)
     = Ok (VInstance 5 class_C).
Proof.
  split.
  - apply (proj1 (proj2 (init_through_instance no_reflection 1 9 5 class_D
                           [VInt 1] class_state))).
    repeat constructor.
  - apply (proj2 (proj2 (init_through_instance no_reflection 0 9 5 class_C
                           [] class_state))
             {| fn_id := 2; fn_name := "init"; fn_arg_names := ["x"];
                fn_body := [ExprStmt (Setattr This "x" (Var "x"));
                            Return (Literal (LInt 1))];
                fn_ctx := root_ctx |}).
    + vm_compute. reflexivity.
    + discriminate.
Defined.

(** X11.  [LoxClass.__call__] ends in one of two ways only: it returns
    the new instance or it raises [TypeError].  Whatever exception the
    call of [init] raises, for a wrong number of arguments or from its
    body, is caught by the bare [except]: with arguments the call of the
    class raises the [TypeError] in its place, without arguments it
    returns the instance; either way the store is the one [init] left.
    So a call without arguments never raises, even when [init] expects
    parameters. *)
Theorem class_call_swallows_init_errors (host : Host) (fuel : nat)
    (c : LoxClass) (args : list Value) (st : State) :
  (outcome (call host (S fuel) (VClass c) args st)
   = Ok (VInstance (next_id st) c)
   \/ outcome (call host (S fuel) (VClass c) args st) = Raise TypeError None
   \/ outcome (call host (S fuel) (VClass c) args st) = OutOfFuel)
  /\ (args = [] ->
      outcome (call host (S fuel) (VClass c) args st)
      = Ok (VInstance (next_id st) c)
      \/ outcome (call host (S fuel) (VClass c) args st) = OutOfFuel)
  /\ (forall f, get_method c "init" = Ok f ->
        length (fn_arg_names f) <> length args ->
        outcome (call host (S (S fuel)) (VClass c) args st)
        = match args with
          | [] => Ok (VInstance (next_id st) c)
          | _ :: _ => Raise TypeError None
          end)
  /\ (forall init_method bound_init st_bound exc msg st_init d,
        get_method c "init" = Ok init_method ->
        bind init_method (VInstance (next_id st) c)
          {| frames := frames st;
             instances := <[next_id st := ∅]> (instances st);
             next_id := S (next_id st);
             stdout := stdout st |}
        = (Ok bound_init, st_bound, 0) ->
        call host fuel (VFunction bound_init) args st_bound
        = (Raise exc msg, st_init, d) ->
        call host (S fuel) (VClass c) args st
        = (match args with
           | [] => Ok (VInstance (next_id st) c)
           | _ :: _ => Raise TypeError None
           end, st_init, S d)).
Proof.
  split; [| split; [| split]].
  - rewrite class_call_unfold. run_monad.
    destruct (get_method c "init") as [f | | |]; cbn [fst];
      try (destruct args; cbn [fst]; auto; fail); auto.
    match goal with
    | |- context [bind f ?i ?s] => destruct (bind f i s) as [[rb stb] db]
    end.
    destruct rb as [b | | |]; cbn [fst];
      try (destruct args; cbn [fst]; auto; fail); auto.
    destruct (call host fuel (VFunction b) args stb) as [[rc stc] dc].
    destruct rc; destruct args; cbn [fst]; auto.
  - intros ->. rewrite class_call_unfold. run_monad.
    destruct (get_method c "init") as [f | | |]; cbn [fst]; auto.
    match goal with
    | |- context [bind f ?i ?s] => destruct (bind f i s) as [[rb stb] db]
    end.
    destruct rb as [b | | |]; cbn [fst]; auto.
    destruct (call host fuel (VFunction b) [] stb) as [[rc stc] dc].
    destruct rc; cbn [fst]; auto.
  - intros f Hf Hlen. rewrite class_call_unfold. run_monad. rewrite Hf.
    match goal with
    | |- context [bind f ?i ?s] =>
        destruct (bind_ok f i s) as (b & stb & Hb & _ & Hargs & _ & _)
    end.
    rewrite Hb. cbv beta iota.
    rewrite function_call_arity by congruence.
    destruct args; reflexivity.
  - intros f b stb exc msg st' d Hf Hb Hcall.
    rewrite class_call_unfold. run_monad.
    unfold set_instances. cbn [frames instances next_id stdout].
    rewrite Hf. cbv beta iota. rewrite Hb. cbv beta iota.
    rewrite Hcall. cbv beta iota.
    destruct args; cbv beta iota;
      rewrite ?Nat.max_0_r, ?Nat.max_0_l; reflexivity.
Qed.

(** [C()] where [init] expects an argument: the arity error is dropped.
    [F(1)]: the initializer stores the field and then fails with
    [NameError]; the call of the class raises [TypeError] instead, and
    the field stays stored. *)
Lemma class_call_swallows_init_errors_witness :
  outcome (call no_reflection 2 (VClass class_C) [] class_state)
  = Ok (VInstance 5 class_C)
  /\ exists st_init d,
       call no_reflection 7 (VClass class_F) [VInt 1] class_state
       = (Raise TypeError None, st_init, S d)
       /\ fields_of st_init 5 !! "x" = Some (VInt 1).
Proof.
  split.
  - apply (proj1 (proj2 (proj2 (class_call_swallows_init_errors
                                  no_reflection 0 class_C [] class_state)))
             {| fn_id := 2; fn_name := "init"; fn_arg_names := ["x"];
                fn_body := [ExprStmt (Setattr This "x" (Var "x"));
                            Return (Literal (LInt 1))];
                fn_ctx := root_ctx |}).
    + vm_compute. reflexivity.
    + discriminate.
  - do 2 eexists. split.
    + eapply (proj2 (proj2 (proj2 (class_call_swallows_init_errors
                                     no_reflection 6 class_F [VInt 1]
                                     class_state)))).
      * compute_lhs.
      * compute_lhs.
      * compute_lhs.
    + vm_compute. reflexivity.
Defined.
(** * The method table of a class *)

(** X12.  The loop of [Class.eval] over the method definitions: the table it
    builds has exactly the names of the definitions (besides what the
    table held before, which stays under every other name), every
    function it adds closes over the method context, and when a name is
    defined more than once the last definition is the one in the
    table. *)
Theorem method_table_of_a_class (method_defs : list Stmt) (ctx : Ctx)
    (methods : gmap string LoxFunction) (st : State) :
  Forall (fun s => exists n a b, s = Function n a b) method_defs ->
  exists table,
    outcome (build_methods method_defs ctx methods st) = Ok table
    /\ (forall name, is_Some (table !! name) <->
          is_Some (methods !! name) \/ name ∈ function_names method_defs)
    /\ (forall name, name ∉ function_names method_defs ->
          table !! name = methods !! name)
    /\ (forall name f, table !! name = Some f ->
          methods !! name = Some f
          \/ (fn_ctx f = ctx /\ fn_name f = name
              /\ Function name (fn_arg_names f) (fn_body f) ∈ method_defs))
    /\ (forall before name a b after,
          method_defs = (before ++ Function name a b :: after)%list ->
          name ∉ function_names after ->
          exists f, table !! name = Some f
                    /\ fn_arg_names f = a /\ fn_body f = b /\ fn_ctx f = ctx).
Proof.
  revert methods st.
  induction method_defs as [| s rest IH]; intros methods st Hall.
  - exists methods. cbn [build_methods]. unfold m_ret, outcome. cbn [fst].
    split; [reflexivity |]. split; [| split; [| split]].
    + intros name. cbn [function_names flat_map]. split; [auto |].
      intros [H | H]; [exact H | inversion H].
    + reflexivity.
    + intros name f Hf. left. exact Hf.
    + intros before name a b after Heq. destruct before; discriminate.
  - apply Forall_cons in Hall as [(n & a & b & ->) Hall].
    cbn [build_methods]. unfold m_bind, fresh. cbv beta iota.
    match goal with
    | |- context [build_methods rest ctx ?m ?s] =>
        destruct (IH m s Hall)
          as (table & Hout & Hdom & Hkeep & Hctx & Hlast);
        destruct (build_methods rest ctx m s) as [[r st'] d']
    end.
    unfold outcome in *. cbn [fst] in *. subst r.
    exists table. split; [reflexivity |].
    assert (Hnames : forall name,
              name ∈ function_names (Function n a b :: rest)
              <-> name = n \/ name ∈ function_names rest).
    { intros name. cbn [function_names flat_map app].
      fold (function_names rest). apply elem_of_cons. }
    split; [| split; [| split]].
    + intros name. rewrite Hdom, Hnames.
      destruct (decide (n = name)) as [-> | Hne].
      * rewrite lookup_insert_eq. split; [auto |]. intros _. left. eauto.
      * rewrite lookup_insert_ne by exact Hne. split.
        -- intros [H | H]; auto.
        -- intros [H | [H | H]]; auto. congruence.
    + intros name Hname. rewrite Hnames in Hname.
      rewrite Hkeep by tauto. apply lookup_insert_ne.
      intros ->. tauto.
    + intros name f Hf. destruct (Hctx name f Hf) as [Hm | (Hc & Hn & Hin)].
      * destruct (decide (n = name)) as [-> | Hne].
        -- rewrite lookup_insert_eq in Hm. injection Hm as <-.
           right. cbn. split; [reflexivity |]. split; [reflexivity |].
           left.
        -- rewrite lookup_insert_ne in Hm by exact Hne. left. exact Hm.
      * right. split; [exact Hc |]. split; [exact Hn |]. right. exact Hin.
    + intros before name a' b' after Heq Hnot.
      destruct before as [| s0 before]; cbn [app] in Heq.
      * injection Heq as Hn Ha Hb Hrest. subst name a' b' after.
        eexists. split.
        -- rewrite (Hkeep _ Hnot). apply lookup_insert_eq.
        -- repeat split.
      * injection Heq as _ Hrest.
        exact (Hlast before name a' b' after Hrest Hnot).
Qed.

Lemma method_table_of_a_class_witness :
  exists table,
    outcome (build_methods
               [Function "f" [] [Return (Literal (LInt 1))];
                Function "f" ["x"] [Return (Literal (LInt 2))]]
               root_ctx ∅ initial_state) = Ok table
    /\ (forall name, is_Some (table !! name) <->
          is_Some ((∅ : gmap string LoxFunction) !! name)
          \/ name ∈ function_names
                      [Function "f" [] [Return (Literal (LInt 1))];
                       Function "f" ["x"] [Return (Literal (LInt 2))]])
    /\ (forall name,
          name ∉ function_names
                   [Function "f" [] [Return (Literal (LInt 1))];
                    Function "f" ["x"] [Return (Literal (LInt 2))]] ->
          table !! name = (∅ : gmap string LoxFunction) !! name)
    /\ (forall name f, table !! name = Some f ->
          (∅ : gmap string LoxFunction) !! name = Some f
          \/ (fn_ctx f = root_ctx /\ fn_name f = name
              /\ Function name (fn_arg_names f) (fn_body f)
                 ∈ [Function "f" [] [Return (Literal (LInt 1))];
                    Function "f" ["x"] [Return (Literal (LInt 2))]]))
    /\ (forall before name a b after,
          [Function "f" [] [Return (Literal (LInt 1))];
           Function "f" ["x"] [Return (Literal (LInt 2))]]
          = (before ++ Function name a b :: after)%list ->
          name ∉ function_names after ->
          exists f, table !! name = Some f
                    /\ fn_arg_names f = a /\ fn_body f = b
                    /\ fn_ctx f = root_ctx).
Proof.
  apply (method_table_of_a_class
           [Function "f" [] [Return (Literal (LInt 1))];
            Function "f" ["x"] [Return (Literal (LInt 2))]]
           root_ctx ∅ initial_state).
  repeat constructor; eauto.
Defined.

(** A node that is not a [Function] has no [name], [body] or
    [arg_names] to read: the loop raises [AttributeError]. *)
Example method_table_needs_functions :
  outcome (build_methods [Print (Literal LNone)] root_ctx ∅ initial_state)
  = Raise AttributeError None.
Proof. reflexivity. Qed.

(** * Logical operators, loops and sequences *)

(** [And.eval] and [Or.eval]. *)
Lemma And_eval_unfold (host : Host) (fuel : nat) (l r : Expr) (ctx : Ctx) :
  Expr_eval host (S fuel) (And l r) ctx
  = activation
      (m_bind (Expr_eval host fuel l ctx) (fun left_value =>
         if negb (is_lox_true left_value) then m_ret left_value
         else Expr_eval host fuel r ctx)).
Proof. reflexivity. Qed.

Lemma Or_eval_unfold (host : Host) (fuel : nat) (l r : Expr) (ctx : Ctx) :
  Expr_eval host (S fuel) (Or l r) ctx
  = activation
      (m_bind (Expr_eval host fuel l ctx) (fun left_value =>
         if is_lox_true left_value then m_ret left_value
         else Expr_eval host fuel r ctx)).
Proof. reflexivity. Qed.

(** X13.  [and] and [or] short-circuit and return an operand, not a boolean:
    when the left operand decides, its value is the result and the store
    is the one it left, the right operand not being evaluated; otherwise
    the result and the store are those of the right operand.  Under
    [truthy] they are conjunction and disjunction. *)
Theorem and_or_short_circuit (host : Host) (fuel : nat) (l r : Expr)
    (ctx : Ctx) (st st1 : State) (vl : Value) (d1 : nat) :
  Expr_eval host fuel l ctx st = (Ok vl, st1, d1) ->
  (truthy vl = false ->
   Expr_eval host (S fuel) (And l r) ctx st = (Ok vl, st1, S d1))
  /\ (truthy vl = true ->
      Expr_eval host (S fuel) (Or l r) ctx st = (Ok vl, st1, S d1))
  /\ (truthy vl = true ->
      outcome (Expr_eval host (S fuel) (And l r) ctx st)
      = outcome (Expr_eval host fuel r ctx st1)
      /\ final_state (Expr_eval host (S fuel) (And l r) ctx st)
         = final_state (Expr_eval host fuel r ctx st1))
  /\ (truthy vl = false ->
      outcome (Expr_eval host (S fuel) (Or l r) ctx st)
      = outcome (Expr_eval host fuel r ctx st1)
      /\ final_state (Expr_eval host (S fuel) (Or l r) ctx st)
         = final_state (Expr_eval host fuel r ctx st1))
  /\ (forall vr, outcome (Expr_eval host fuel r ctx st1) = Ok vr ->
      (exists v, outcome (Expr_eval host (S fuel) (And l r) ctx st) = Ok v
                 /\ truthy v = truthy vl && truthy vr)
      /\ (exists v, outcome (Expr_eval host (S fuel) (Or l r) ctx st) = Ok v
                    /\ truthy v = truthy vl || truthy vr)).
Proof.
  intros Hl. rewrite And_eval_unfold, Or_eval_unfold.
  unfold activation, m_bind, is_lox_true, outcome, final_state.
  rewrite Hl. cbv beta iota.
  destruct (truthy vl) eqn:Hvl; cbn [negb]; unfold m_ret;
    destruct (Expr_eval host fuel r ctx st1) as [[rr st2] d2];
    cbn [fst snd];
    repeat split; try discriminate; try (rewrite Nat.max_0_r; reflexivity);
    intros; subst; cbn [fst snd]; eauto.
Qed.

Lemma and_or_short_circuit_witness :
  Expr_eval no_reflection 2
    (And (Literal LNone) (Call (Var "undefined") [])) root_ctx initial_state
  = (Ok VNone, initial_state, 2)
  /\ Expr_eval no_reflection 2
       (Or (Literal (LInt 0)) (Call (Var "undefined") [])) root_ctx
       initial_state
     = (Ok (VInt 0), initial_state, 2).
Proof.
  split.
  - apply (proj1 (and_or_short_circuit no_reflection 1 (Literal LNone)
                    (Call (Var "undefined") []) root_ctx initial_state
                    initial_state VNone 1 eq_refl)).
    reflexivity.
  - apply (proj1 (proj2 (and_or_short_circuit no_reflection 1
                           (Literal (LInt 0)) (Call (Var "undefined") [])
                           root_ctx initial_state initial_state (VInt 0) 1
                           eq_refl))).
    reflexivity.
Defined.

(** X14.  A loop that ends normally ends on its condition: the last thing
    [While.eval] did was to evaluate the condition to a value that is not
    truthy, and the store it leaves is the store that evaluation left. *)
Theorem while_ends_on_a_falsy_condition (host : Host) (fuel : nat)
    (cond : Expr) (body : Stmt) (ctx : Ctx) (st : State) :
  outcome (Stmt_eval host fuel (While cond body) ctx st) = Ok tt ->
  exists fuel' st0 v d,
    Expr_eval host fuel' cond ctx st0
    = (Ok v, final_state (Stmt_eval host fuel (While cond body) ctx st), d)
    /\ truthy v = false.
Proof.
  revert st. induction fuel as [| fuel IH]; intros st; [discriminate |].
  rewrite While_eval_unfold.
  unfold activation, m_bind, outcome, final_state, is_lox_true.
  destruct (Expr_eval host fuel cond ctx st) as [[rc st1] d1] eqn:Hc.
  destruct rc as [c | | |]; cbn [fst snd]; try discriminate.
  destruct (truthy c) eqn:Htc.
  - destruct (Stmt_eval host fuel body ctx st1) as [[rb st2] d2].
    destruct rb as [u | | |]; cbn [fst snd]; try discriminate.
    specialize (IH st2). unfold outcome, final_state in IH.
    destruct (Stmt_eval host fuel (While cond body) ctx st2)
      as [[rw st3] d3].
    cbn [fst snd] in *. exact IH.
  - unfold m_ret. cbn [fst snd]. intros _.
    exists fuel, st, c, d1. split; [exact Hc | exact Htc].
Qed.

Lemma while_ends_on_a_falsy_condition_witness :
  exists fuel' st0 v d,
    Expr_eval no_reflection fuel' (counting_cond 3) root_ctx st0
    = (Ok v,
       final_state (Stmt_eval no_reflection 20
                      (While (counting_cond 3) counting_body) root_ctx
                      counter_state), d)
    /\ truthy v = false.
Proof.
  apply (while_ends_on_a_falsy_condition no_reflection 20 (counting_cond 3)
           counting_body root_ctx counter_state).
  vm_compute. reflexivity.
Defined.

(** A sequence of statements runs in order and stops at the first one
    that does not end normally. *)
Lemma for_each_app {A} (f : A -> M unit) (l1 l2 : list A) (st : State) :
  for_each f (l1 ++ l2) st
  = m_bind (for_each f l1) (fun _ => for_each f l2) st.
Proof.
  revert st. induction l1 as [| x l1 IH]; intros st; cbn [app for_each].
  - unfold m_bind, m_ret. destruct (for_each f l2 st) as [[r st2] d2].
    reflexivity.
  - unfold m_bind at 1 2 3. destruct (f x st) as [[r st1] d1].
    destruct r as [[] | | |]; try reflexivity.
    rewrite IH. unfold m_bind.
    destruct (for_each f l1 st1) as [[r1 st2] d2].
    destruct r1 as [[] | | |]; try reflexivity.
    destruct (for_each f l2 st2) as [[r2 st3] d3].
    rewrite Nat.max_assoc. reflexivity.
Qed.

(** X15.  [Program.eval] on a program in two parts: when the first part ends
    normally the program ends as the second part does from the store the
    first left; when the first part raises, the program ends there, with
    that exception and that store (and the output printed so far), and
    nothing of the second part is run. *)
Theorem program_runs_in_order (host : Host) (fuel : nat)
    (p1 p2 : list Stmt) (ctx : Ctx) (st : State) :
  (outcome (Program_eval host fuel {| stmts := p1 |} ctx st) = Ok tt ->
   outcome (Program_eval host fuel {| stmts := p1 ++ p2 |} ctx st)
   = outcome (Program_eval host fuel {| stmts := p2 |} ctx
                (final_state
                   (Program_eval host fuel {| stmts := p1 |} ctx st)))
   /\ final_state (Program_eval host fuel {| stmts := p1 ++ p2 |} ctx st)
      = final_state
          (Program_eval host fuel {| stmts := p2 |} ctx
             (final_state
                (Program_eval host fuel {| stmts := p1 |} ctx st))))
  /\ (outcome (Program_eval host fuel {| stmts := p1 |} ctx st) <> Ok tt ->
      Program_eval host fuel {| stmts := p1 ++ p2 |} ctx st
      = Program_eval host fuel {| stmts := p1 |} ctx st).
Proof.
  unfold Program_eval, activation, outcome, final_state. cbn [stmts].
  rewrite for_each_app. unfold m_bind.
  destruct (for_each (fun stmt => Stmt_eval host fuel stmt ctx) p1 st)
    as [[r1 st1] d1].
  destruct r1 as [[] | | |]; cbn [fst snd]; split;
    try discriminate; try congruence; try reflexivity.
  intros _.
  destruct (for_each (fun stmt => Stmt_eval host fuel stmt ctx) p2 st1)
    as [[r2 st2] d2].
  split; reflexivity.
Qed.

Lemma program_runs_in_order_witness :
  Program_eval no_reflection 5
    {| stmts := [Print (Literal (LStr "a")); Print (Var "x")]
                ++ [Print (Literal (LStr "b"))] |} root_ctx initial_state
  = Program_eval no_reflection 5
      {| stmts := [Print (Literal (LStr "a")); Print (Var "x")] |}
      root_ctx initial_state.
Proof.
  apply (proj2 (program_runs_in_order no_reflection 5
                  [Print (Literal (LStr "a")); Print (Var "x")]
                  [Print (Literal (LStr "b"))] root_ctx initial_state)).
  vm_compute. discriminate.
Defined.

Example output_before_an_error_is_kept :
  run_program no_reflection 5
    [Print (Literal (LStr "a")); Print (Var "x"); Print (Literal (LStr "b"))]
  = (Raise NameError None, ["a"]).
Proof. vm_compute. reflexivity. Qed.

(** * Output is only ever appended to *)

Lemma output_extends_refl (st : State) : output_extends st st.
Proof. exists []. rewrite app_nil_r. reflexivity. Qed.

Lemma output_extends_trans (st1 st2 st3 : State) :
  output_extends st1 st2 -> output_extends st2 st3 -> output_extends st1 st3.
Proof.
  intros [o1 H1] [o2 H2]. exists (o1 ++ o2)%list.
  rewrite H2, H1, app_assoc. reflexivity.
Qed.

Lemma ao_ret {A} (a : A) : appends_only (m_ret a).
Proof. intros st. apply output_extends_refl. Qed.

Lemma ao_lift {A} (r : Result A) : appends_only (lift r).
Proof. intros st. apply output_extends_refl. Qed.

Lemma ao_raise {A} (c : ExcClass) (msg : option string) :
  appends_only (@raise A c msg).
Proof. intros st. apply output_extends_refl. Qed.

Lemma ao_reraise {A} (e : Exception) : appends_only (@reraise A e).
Proof. destruct e; apply ao_lift. Qed.

Lemma ao_get_state : appends_only get_state.
Proof. intros st. apply output_extends_refl. Qed.

Lemma ao_fresh : appends_only fresh.
Proof.
  intros st. exists []. unfold fresh, final_state. cbn [fst snd stdout].
  rewrite app_nil_r. reflexivity.
Qed.

Lemma ao_modify (f : State -> State) :
  (forall st, stdout (f st) = stdout st) -> appends_only (modify f).
Proof.
  intros Hf st. exists []. unfold modify, final_state. cbn [fst snd].
  rewrite Hf, app_nil_r. reflexivity.
Qed.

Lemma ao_print (s : string) : appends_only (print_line s).
Proof. intros st. exists [s]. reflexivity. Qed.

Lemma ao_bind {A B} (m : M A) (k : A -> M B) :
  appends_only m -> (forall a, appends_only (k a)) ->
  appends_only (m_bind m k).
Proof.
  intros Hm Hk st. specialize (Hm st). unfold m_bind, final_state in *.
  destruct (m st) as [[r st1] d1]. cbn [fst snd] in Hm.
  destruct r as [a | | |]; cbn [fst snd]; try exact Hm.
  specialize (Hk a st1). unfold final_state in Hk.
  destruct (k a st1) as [[r2 st2] d2]. cbn [fst snd] in *.
  exact (output_extends_trans _ _ _ Hm Hk).
Qed.

Lemma ao_try {A} (m : M A) (h : Exception -> M A) :
  appends_only m -> (forall e, appends_only (h e)) ->
  appends_only (try_except m h).
Proof.
  intros Hm Hh st. specialize (Hm st). unfold try_except, final_state in *.
  destruct (m st) as [[r st1] d1]. cbn [fst snd] in Hm.
  destruct r as [a | c msg | v |]; cbn [fst snd]; try exact Hm.
  - specialize (Hh (PyExc c msg) st1). unfold final_state in Hh.
    destruct (h (PyExc c msg) st1) as [[r2 st2] d2]. cbn [fst snd] in *.
    exact (output_extends_trans _ _ _ Hm Hh).
  - specialize (Hh (ReturnSignal v) st1). unfold final_state in Hh.
    destruct (h (ReturnSignal v) st1) as [[r2 st2] d2]. cbn [fst snd] in *.
    exact (output_extends_trans _ _ _ Hm Hh).
Qed.

Lemma ao_activation {A} (m : M A) :
  appends_only m -> appends_only (activation m).
Proof.
  intros Hm st. specialize (Hm st). unfold activation, final_state in *.
  destruct (m st) as [[r st1] d1]. exact Hm.
Qed.

Lemma ao_for_each {A} (f : A -> M unit) (l : list A) :
  (forall x, appends_only (f x)) -> appends_only (for_each f l).
Proof.
  intros Hf. induction l as [| x l IH]; cbn [for_each].
  - apply ao_ret.
  - apply ao_bind; [apply Hf | intros _; exact IH].
Qed.

Lemma ao_map_m {A B} (f : A -> M B) (l : list A) :
  (forall x, appends_only (f x)) -> appends_only (map_m f l).
Proof.
  intros Hf. induction l as [| x l IH]; cbn [map_m].
  - apply ao_ret.
  - apply ao_bind; [apply Hf |]. intros y.
    apply ao_bind; [exact IH |]. intros ys. apply ao_ret.
Qed.

Ltac ao_step :=
  first
    [ apply ao_activation | apply ao_bind | apply ao_try
    | apply ao_ret | apply ao_raise | apply ao_lift | apply ao_reraise
    | apply ao_get_state | apply ao_fresh | apply ao_print
    | apply ao_for_each | apply ao_map_m
    | apply ao_modify; intros; reflexivity
    | progress intros
    | match goal with
      | |- appends_only (match ?x with _ => _ end) => destruct x
      end ].

Ltac ao := repeat ao_step.

Lemma ao_ctx_getitem (ctx : Ctx) (name : string) :
  appends_only (ctx_getitem ctx name).
Proof. unfold ctx_getitem. ao. Qed.

Lemma ao_ctx_setitem (ctx : Ctx) (name : string) (v : Value) :
  appends_only (ctx_setitem ctx name v).
Proof. unfold ctx_setitem. ao. Qed.

Lemma ao_var_def (ctx : Ctx) (name : string) (v : Value) :
  appends_only (var_def ctx name v).
Proof. unfold var_def. ao. Qed.

Lemma ao_new_Ctx (scope : gmap string Value) (parent : Ctx) :
  appends_only (new_Ctx scope parent).
Proof. unfold new_Ctx. ao. Qed.

Lemma ao_bind_method (f : LoxFunction) (obj : Value) :
  appends_only (bind f obj).
Proof.
  unfold bind, child. ao; first [apply ao_new_Ctx | apply ao_var_def].
Qed.

Lemma ao_set (a : nat) (name : string) (value : Value) :
  appends_only (set a name value).
Proof. unfold set. ao. Qed.

Lemma ao_get (a : nat) (c : LoxClass) (name : string) :
  appends_only (get a c name).
Proof. unfold get. ao; apply ao_bind_method. Qed.

Lemma ao_host_attr (host : Host) (v : Value) (name : string) :
  appends_only (host_attr host v name).
Proof. unfold host_attr. ao. Qed.

Lemma ao_getattr_fallback (host : Host) (v : Value) (name : string) :
  appends_only (getattr_fallback host v name).
Proof. unfold getattr_fallback. ao. Qed.

Lemma ao_not_callable {A} (func : Value) :
  appends_only (@not_callable A func).
Proof. unfold not_callable. ao. Qed.

Lemma ao_super_handler (e : Exception) : appends_only (super_handler e).
Proof. unfold super_handler. ao. Qed.

Lemma ao_build_methods (l : list Stmt) (ctx : Ctx)
    (methods : gmap string LoxFunction) :
  appends_only (build_methods l ctx methods).
Proof.
  revert methods. induction l as [| s l IH]; intros methods;
    cbn [build_methods]; [apply ao_ret |].
  destruct s; try apply ao_raise.
  apply ao_bind; [apply ao_fresh |]. intros i. apply IH.
Qed.

Lemma ao_apply_binop (host : Host) (op : BinaryOperator) (l r : Value) :
  appends_only (apply_binop host op l r).
Proof. unfold apply_binop. ao. Qed.

Lemma ao_apply_unop (op : UnaryOperator) (v : Value) :
  appends_only (apply_unop op v).
Proof. unfold apply_unop. ao. Qed.

Ltac ao_eval :=
  repeat first
    [ apply ao_ctx_getitem | apply ao_ctx_setitem | apply ao_var_def
    | apply ao_new_Ctx | apply ao_bind_method | apply ao_set | apply ao_get
    | apply ao_host_attr | apply ao_getattr_fallback | apply ao_not_callable
    | apply ao_super_handler | apply ao_build_methods
    | apply ao_apply_binop | apply ao_apply_unop
    | match goal with
      | H : forall e ctx, appends_only (Expr_eval _ _ e ctx)
        |- appends_only (Expr_eval _ _ _ _) => apply H
      | H : forall s ctx, appends_only (Stmt_eval _ _ s ctx)
        |- appends_only (Stmt_eval _ _ _ _) => apply H
      | H : forall f args, appends_only (call _ _ f args)
        |- appends_only (call _ _ _ _) => apply H
      end
    | ao_step ].

Lemma evaluator_appends_only (host : Host) (fuel : nat) :
  (forall e ctx, appends_only (Expr_eval host fuel e ctx))
  /\ (forall s ctx, appends_only (Stmt_eval host fuel s ctx))
  /\ (forall f args, appends_only (call host fuel f args)).
Proof.
  induction fuel as [| fuel (IHe & IHs & IHc)].
  - repeat split; intros; apply ao_lift.
  - split; [| split].
    + intros e ctx. destruct e; simpl; ao_eval.
    + intros s ctx. destruct s; simpl; ao_eval.
    + intros f args. destruct f; simpl; ao_eval.
Qed.

(** [Print.eval]. *)
Lemma Print_eval_unfold (host : Host) (fuel : nat) (expr : Expr)
    (ctx : Ctx) :
  Stmt_eval host (S fuel) (Print expr) ctx
  = activation
      (m_bind (Expr_eval host fuel expr ctx) (fun value =>
         m_bind (lift (show_result host value)) (fun text =>
           print_line text))).
Proof. reflexivity. Qed.

(** X16.  Nothing in the interpreter erases or rewrites output:
    whatever an expression, a statement, a call or a whole program does,
    and however it ends, the output afterwards is the output before with
    lines added at the end.  [Print.eval] adds exactly one line, the
    [show] of the value, after the output of evaluating its expression;
    when the value is an [int] too long for [str], it raises
    [ValueError] and adds nothing. *)
Theorem output_is_only_appended (host : Host) (fuel : nat) :
  (forall e ctx st, exists out : list string,
     stdout (final_state (Expr_eval host fuel e ctx st))
     = (stdout st ++ out)%list)
  /\ (forall s ctx st, exists out : list string,
        stdout (final_state (Stmt_eval host fuel s ctx st))
        = (stdout st ++ out)%list)
  /\ (forall f args st, exists out : list string,
        stdout (final_state (call host fuel f args st))
        = (stdout st ++ out)%list)
  /\ (forall p ctx st, exists out : list string,
        stdout (final_state (Program_eval host fuel p ctx st))
        = (stdout st ++ out)%list)
  /\ (forall expr ctx st v st1 d,
        Expr_eval host fuel expr ctx st = (Ok v, st1, d) ->
        (str_raises v = false ->
         outcome (Stmt_eval host (S fuel) (Print expr) ctx st) = Ok tt
         /\ stdout
              (final_state (Stmt_eval host (S fuel) (Print expr) ctx st))
            = (stdout st1 ++ [show host v])%list)
        /\ (str_raises v = true ->
            Stmt_eval host (S fuel) (Print expr) ctx st
            = (Raise ValueError None, st1, S d))).
Proof.
  destruct (evaluator_appends_only host fuel) as (He & Hs & Hc).
  split; [exact He |]. split; [exact Hs |]. split; [exact Hc |]. split.
  - intros p ctx.
    assert (H : appends_only (Program_eval host fuel p ctx)).
    { unfold Program_eval. apply ao_activation, ao_for_each.
      intros stmt. apply Hs. }
    exact H.
  - intros expr ctx st v st1 d Hv. rewrite Print_eval_unfold.
    unfold activation, m_bind, final_state, outcome, show_result, lift.
    rewrite Hv. cbv beta iota.
    split; intros Hstr; rewrite Hstr; cbv beta iota; cbn [fst snd].
    + split; reflexivity.
    + rewrite Nat.max_0_r. reflexivity.
Qed.

(** The bound of [str] is [10 ** 4300], the least [int] of 4301 digits:
    [print n * 1;], where [n] is that number written out, raises
    [ValueError] and prints nothing. *)
Example print_of_a_long_int :
  int_str_bound = (10 ^ 4300)%Z
  /\ str_raises (VInt (int_str_bound - 1)) = false
  /\ str_raises (VInt (- int_str_bound)) = true
  /\ run_program no_reflection 4
       [Print (BinOp (Literal (LInt int_str_bound)) (Literal (LInt 1))
                 op_mul)]
     = (Raise ValueError None, []).
Proof. split; [| split; [| split]]; vm_compute; reflexivity. Qed.

(** * The return signal stays inside the call *)

Lemma nr_ret {A} (a : A) : never_returns (m_ret a).
Proof. intros st v. discriminate. Qed.

Lemma nr_raise {A} (c : ExcClass) (msg : option string) :
  never_returns (@raise A c msg).
Proof. intros st v. discriminate. Qed.

Lemma nr_lift {A} (r : Result A) :
  (forall v, r <> LoxReturn v) -> never_returns (lift r).
Proof. intros Hr st v. exact (Hr v). Qed.

Lemma nr_fresh : never_returns fresh.
Proof. intros st v. discriminate. Qed.

Lemma nr_modify (f : State -> State) : never_returns (modify f).
Proof. intros st v. discriminate. Qed.

Lemma nr_bind {A B} (m : M A) (k : A -> M B) :
  never_returns m -> (forall a, never_returns (k a)) ->
  never_returns (m_bind m k).
Proof.
  intros Hm Hk st v. specialize (Hm st). unfold m_bind, outcome in *.
  destruct (m st) as [[r st1] d1]. cbn [fst] in Hm.
  destruct r as [a | | w |]; cbn [fst]; try discriminate.
  - specialize (Hk a st1 v). unfold outcome in Hk.
    destruct (k a st1) as [[r2 st2] d2]. exact Hk.
  - exfalso. exact (Hm w eq_refl).
Qed.

(** A handler that never re-raises the signal stops it, whatever the
    body of the [try] does. *)
Lemma nr_try_all {A} (m : M A) (h : Exception -> M A) :
  (forall e, never_returns (h e)) -> never_returns (try_except m h).
Proof.
  intros Hh st v. unfold try_except, outcome.
  destruct (m st) as [[r st1] d1].
  destruct r as [a | c msg | w |]; cbn [fst]; try discriminate.
  - specialize (Hh (PyExc c msg) st1 v). unfold outcome in Hh.
    destruct (h (PyExc c msg) st1) as [[r2 st2] d2]. exact Hh.
  - specialize (Hh (ReturnSignal w) st1 v). unfold outcome in Hh.
    destruct (h (ReturnSignal w) st1) as [[r2 st2] d2]. exact Hh.
Qed.

Lemma nr_activation {A} (m : M A) :
  never_returns m -> never_returns (activation m).
Proof.
  intros Hm st v. specialize (Hm st v). unfold activation, outcome in *.
  destruct (m st) as [[r st1] d1]. exact Hm.
Qed.

Lemma nr_new_Ctx (scope : gmap string Value) (parent : Ctx) :
  never_returns (new_Ctx scope parent).
Proof.
  unfold new_Ctx. apply nr_bind; [apply nr_fresh |]. intros a.
  apply nr_bind; [apply nr_modify |]. intros _. apply nr_ret.
Qed.

(** [Return.eval]. *)
Lemma Return_eval_unfold (host : Host) (fuel : nat) (value : Expr)
    (ctx : Ctx) :
  Stmt_eval host (S fuel) (Return value) ctx
  = activation
      (m_bind (Expr_eval host fuel value ctx) (fun v =>
         lift (LoxReturn v))).
Proof. reflexivity. Qed.

(** X17.  The [LoxReturn] signal that [Return.eval] raises never leaves a
    call: [LoxFunction.__call__] catches it and returns its value, and
    the bare [except] clauses of [LoxClass.__call__] and
    [LoxInstance.init] catch everything; so whatever the body of a
    function or an initializer does, no call of a function, a class or
    an initializer ends with the signal. *)
Theorem return_signal_stays_inside_calls (host : Host) (fuel : nat) :
  (forall f args st v,
     outcome (call host fuel f args st) <> LoxReturn v)
  /\ (forall e ctx st v st1 d,
        Expr_eval host fuel e ctx st = (Ok v, st1, d) ->
        outcome (Stmt_eval host (S fuel) (Return e) ctx st) = LoxReturn v).
Proof.
  split.
  - intros f args.
    assert (H : never_returns (call host fuel f args)); [| exact H].
    destruct fuel as [| fuel]; [apply nr_lift; discriminate |].
    destruct f as [| b | z | x | s | g | c | a c | i c | i a c];
      try (apply (@nr_raise Value TypeError None)).
    + rewrite function_call_unfold. apply nr_activation.
      destruct (negb _); [apply nr_raise |].
      apply nr_bind; [apply nr_new_Ctx |]. intros ctx.
      apply nr_try_all. intros [exc msg | w].
      * apply nr_lift. discriminate.
      * apply nr_ret.
    + rewrite class_call_unfold. apply nr_activation.
      apply nr_bind; [apply nr_fresh |]. intros a.
      apply nr_bind; [apply nr_modify |]. intros _.
      apply nr_bind; [| intros _; apply nr_ret].
      apply nr_try_all. intros e.
      destruct args; [apply nr_ret | apply nr_raise].
    + rewrite init_lambda_unfold. do 2 apply nr_activation.
      apply nr_try_all. intros e. apply nr_ret.
  - intros e ctx st v st1 d Hv. rewrite Return_eval_unfold.
    unfold activation, m_bind, outcome. rewrite Hv. reflexivity.
Qed.

(** [fun f() { return 1; } print f();] prints 1; a [return] outside any
    function is not caught by anything, and the program ends with the
    signal. *)
Example return_in_and_out_of_a_function :
  run_program no_reflection 8
    [Function "f" [] [Return (Literal (LInt 1))];
     Print (Call (Var "f") [])]
  = (Ok tt, ["1"])
  /\ run_program no_reflection 3 [Return (Literal (LInt 1))]
     = (LoxReturn (VInt 1), []).
Proof. split; vm_compute; reflexivity. Qed.
(** * Binding: parameters, [this] and [super] *)

Lemma new_Ctx_spec (scope : gmap string Value) (parent : Ctx) (st : State) :
  exists st1,
    new_Ctx scope parent st
    = (Ok {| frame := next_id st; parents := ctx_chain parent |}, st1, 0)
    /\ scope_of st1 (next_id st) = scope
    /\ (forall a, a <> next_id st -> scope_of st1 a = scope_of st a)
    /\ instances st1 = instances st
    /\ stdout st1 = stdout st
    /\ next_id st1 = S (next_id st).
Proof.
  unfold new_Ctx. run_monad. eexists. split; [reflexivity |].
  unfold scope_of, set_frames. cbn [frames instances stdout next_id].
  split; [| split; [| repeat split]].
  - rewrite lookup_insert_eq. reflexivity.
  - intros a Ha. rewrite lookup_insert_ne by congruence. reflexivity.
Qed.

Lemma bind_spec (f : LoxFunction) (obj : Value) (st : State) :
  exists st1,
    bind f obj st
    = (Ok {| fn_id := S (next_id st); fn_name := fn_name f;
             fn_arg_names := fn_arg_names f; fn_body := fn_body f;
             fn_ctx := {| frame := next_id st;
                          parents := ctx_chain (fn_ctx f) |} |}, st1, 0)
    /\ scope_of st1 (next_id st) = {["this" := obj]}
    /\ (forall a, a <> next_id st -> scope_of st1 a = scope_of st a)
    /\ instances st1 = instances st
    /\ stdout st1 = stdout st
    /\ next_id st1 = S (S (next_id st)).
Proof.
  unfold bind, child, new_Ctx, var_def. run_monad.
  eexists. split; [reflexivity |].
  unfold scope_of, set_frames. cbn [frames instances stdout next_id frame].
  split; [| split; [| repeat split]].
  - rewrite lookup_insert_eq. cbn [from_option id].
    rewrite lookup_insert_eq. reflexivity.
  - intros a Ha. rewrite !lookup_insert_ne by congruence. reflexivity.
Qed.

(** [Super.eval]. *)
Lemma Super_eval_unfold (host : Host) (fuel : nat) (method_name : string)
    (ctx : Ctx) :
  Expr_eval host (S fuel) (Super method_name) ctx
  = activation
      (try_except
         (m_bind (ctx_getitem ctx "super") (fun super_class =>
            m_bind (ctx_getitem ctx "this") (fun this_instance =>
              m_bind
                match super_class with
                | VClass c =>
                    m_bind (lift (get_method c method_name)) (fun f =>
                      m_ret (VFunction f))
                | v =>
                    m_bind (host_attr host v "get_method") (fun g =>
                      if callable g then call host fuel g [VStr method_name]
                      else raise TypeError None)
                end
                (fun method =>
                   match method with
                   | VFunction f =>
                       m_bind (bind f this_instance) (fun bound =>
                         m_ret (VFunction bound))
                   | v =>
                       m_bind (host_attr host v "bind") (fun g =>
                         if callable g then call host fuel g [this_instance]
                         else raise TypeError None)
                   end))))
         super_handler).
Proof. reflexivity. Qed.

Lemma ctx_getitem_found (ctx : Ctx) (name : string) (st : State) (v : Value) :
  chain_lookup st (ctx_chain ctx) name = Some v ->
  ctx_getitem ctx name st = (Ok v, st, 0).
Proof.
  intros H. unfold ctx_getitem, get_state. run_monad. rewrite H. reflexivity.
Qed.

Lemma ctx_getitem_missing (ctx : Ctx) (name : string) (st : State) :
  chain_lookup st (ctx_chain ctx) name = None ->
  ctx_getitem ctx name st = (Raise KeyError (Some name), st, 0).
Proof.
  intros H. unfold ctx_getitem, get_state. run_monad. rewrite H. reflexivity.
Qed.

(** X18.  [super.m] in a context where ["super"] is a class and ["this"] is
    bound: the method is looked up from the superclass (not from the
    class of the instance) and the result is a new function object with
    the method's name, parameters and body, whose context is a new frame
    holding only ["this"], placed in front of the method's own context;
    no other frame, no field and no output changes.  When the superclass
    chain lacks the method the [SemanticError] of [get_method] gets out;
    when ["super"] or ["this"] is not bound the result is [NameError]. *)
Theorem super_binds_to_this (host : Host) (fuel : nat) (name : string)
    (ctx : Ctx) (st : State) (superclass : LoxClass) (this : Value) :
  chain_lookup st (ctx_chain ctx) "super" = Some (VClass superclass) ->
  (forall f,
     chain_lookup st (ctx_chain ctx) "this" = Some this ->
     get_method superclass name = Ok f ->
     exists st1,
       Expr_eval host (S fuel) (Super name) ctx st
       = (Ok (VFunction
                {| fn_id := S (next_id st); fn_name := fn_name f;
                   fn_arg_names := fn_arg_names f; fn_body := fn_body f;
                   fn_ctx := {| frame := next_id st;
                                parents := ctx_chain (fn_ctx f) |} |}),
          st1, 1)
       /\ scope_of st1 (next_id st) = {["this" := this]}
       /\ (forall a, a <> next_id st -> scope_of st1 a = scope_of st a)
       /\ instances st1 = instances st
       /\ stdout st1 = stdout st)
  /\ (chain_lookup st (ctx_chain ctx) "this" = Some this ->
      Forall (fun k => class_methods k !! name = None)
        (inheritance_chain superclass) ->
      Expr_eval host (S fuel) (Super name) ctx st
      = (Raise SemanticError None, st, 1))
  /\ (chain_lookup st (ctx_chain ctx) "this" = None ->
      Expr_eval host (S fuel) (Super name) ctx st
      = (Raise NameError None, st, 1)).
Proof.
  intros Hsuper. rewrite Super_eval_unfold.
  unfold activation, try_except, m_bind.
  rewrite (ctx_getitem_found _ _ _ _ Hsuper). cbv beta iota.
  split; [| split].
  - intros f Hthis Hf.
    rewrite (ctx_getitem_found _ _ _ _ Hthis). cbv beta iota.
    rewrite Hf. unfold lift, m_ret. cbv beta iota.
    destruct (bind_spec f this st)
      as (st1 & Hb & Hscope & Hother & Hi & Ho & _).
    rewrite Hb. cbv beta iota. exists st1. repeat split; assumption.
  - intros Hthis Hno.
    rewrite (ctx_getitem_found _ _ _ _ Hthis). cbv beta iota.
    rewrite (get_method_without _ _ Hno). reflexivity.
  - intros Hthis.
    rewrite (ctx_getitem_missing _ _ _ Hthis). reflexivity.
Qed.

Lemma super_binds_to_this_witness :
  exists st1,
    Expr_eval no_reflection 1 (Super "f") method_ctx super_state
    = (Ok (VFunction
             {| fn_id := 7; fn_name := "f"; fn_arg_names := [];
                fn_body := [Return This];
                fn_ctx := {| frame := 6; parents := [0] |} |}), st1, 1)
    /\ scope_of st1 6 = {["this" := VInstance 3 class_A]}
    /\ (forall a, a <> 6 -> scope_of st1 a = scope_of super_state a)
    /\ instances st1 = instances super_state
    /\ stdout st1 = stdout super_state.
Proof.
  apply (proj1 (super_binds_to_this no_reflection 0 "f" method_ctx
                  super_state class_A (VInstance 3 class_A) eq_refl)
           method_f); reflexivity.
Defined.

(** Without ["super"] in scope [Super.eval] raises [NameError]. *)
Example super_outside_a_subclass :
  outcome (Expr_eval no_reflection 1 (Super "f") root_ctx initial_state)
  = Raise NameError None.
Proof. reflexivity. Qed.

(** X19.  [LoxInstance.get] on a name that is not a field and not ["init"]:
    a method found in the class chain comes back bound, as a new function
    object whose context is a new frame holding only ["this"], the
    instance, in front of the method's context; a name that the chain
    lacks raises [AttributeError].  Every access makes a new object, so
    two accesses to the same method are not equal for [lox_eq]. *)
Theorem method_access_binds_this (host : Host) (a : nat) (c : LoxClass)
    (name : string) (st : State) :
  fields_of st a !! name = None ->
  name <> "init" ->
  (forall f, get_method c name = Ok f ->
     exists st1,
       get a c name st
       = (Ok (VFunction
                {| fn_id := S (next_id st); fn_name := fn_name f;
                   fn_arg_names := fn_arg_names f; fn_body := fn_body f;
                   fn_ctx := {| frame := next_id st;
                                parents := ctx_chain (fn_ctx f) |} |}),
          st1, 0)
       /\ scope_of st1 (next_id st) = {["this" := VInstance a c]}
       /\ (forall b, b <> next_id st -> scope_of st1 b = scope_of st b)
       /\ instances st1 = instances st
       /\ stdout st1 = stdout st
       /\ (forall v1 v2 st2 d,
             get a c name st = (Ok v1, st1, 0) ->
             get a c name st1 = (Ok v2, st2, d) ->
             lox_eq host st2 v1 v2 = false))
  /\ (Forall (fun k => class_methods k !! name = None)
        (inheritance_chain c) ->
      get a c name st = (Raise AttributeError None, st, 0)).
Proof.
  intros Hfield Hname.
  assert (Hget : forall s, fields_of s a !! name = None ->
            get a c name s
            = match get_method c name with
              | Ok method =>
                  m_bind (bind method (VInstance a c)) (fun bound_method =>
                    m_ret (VFunction bound_method)) s
              | _ => (Raise AttributeError None, s, 0)
              end).
  { intros s Hs. unfold get. unfold m_bind at 1, get_state.
    rewrite Hs. apply String.eqb_neq in Hname. rewrite Hname.
    destruct (get_method c name); reflexivity. }
  split.
  - intros f Hf. rewrite (Hget st Hfield), Hf. unfold m_bind, m_ret.
    destruct (bind_spec f (VInstance a c) st)
      as (st1 & Hb & Hscope & Hother & Hi & Ho & Hid).
    rewrite Hb. cbv beta iota. exists st1.
    split; [reflexivity |]. repeat split; try assumption.
    intros v1 v2 st2 d [= <-] H2.
    assert (Hfield1 : fields_of st1 a !! name = None).
    { unfold fields_of. rewrite Hi. exact Hfield. }
    rewrite (Hget st1 Hfield1), Hf in H2. unfold m_bind, m_ret in H2.
    destruct (bind_spec f (VInstance a c) st1) as (st2' & Hb2 & _).
    rewrite Hb2 in H2. cbv beta iota in H2. injection H2 as <- _ _.
    unfold lox_eq. cbn [py_type py_type_eqb negb fn_id].
    rewrite Hid. apply Nat.eqb_neq. lia.
  - intros Hno. rewrite (Hget st Hfield), (get_method_without _ _ Hno).
    reflexivity.
Qed.

Lemma method_access_binds_this_witness :
  get 3 class_A "g" super_state = (Raise AttributeError None, super_state, 0)
  /\ exists st1,
       get 3 class_A "f" super_state
       = (Ok (VFunction
                {| fn_id := 7; fn_name := "f"; fn_arg_names := [];
                   fn_body := [Return This];
                   fn_ctx := {| frame := 6; parents := [0] |} |}), st1, 0)
       /\ scope_of st1 6 = {["this" := VInstance 3 class_A]}
       /\ (forall b, b <> 6 -> scope_of st1 b = scope_of super_state b)
       /\ instances st1 = instances super_state
       /\ stdout st1 = stdout super_state
       /\ (forall v1 v2 st2 d,
             get 3 class_A "f" super_state = (Ok v1, st1, 0) ->
             get 3 class_A "f" st1 = (Ok v2, st2, d) ->
             lox_eq no_reflection st2 v1 v2 = false).
Proof.
  split.
  - apply (proj2 (method_access_binds_this no_reflection 3 class_A "g"
                    super_state eq_refl ltac:(discriminate))).
    repeat constructor.
  - apply (proj1 (method_access_binds_this no_reflection 3 class_A "f"
                    super_state eq_refl ltac:(discriminate)) method_f).
    reflexivity.
Defined.

(** The method is bound to the instance it was read from: called, it
    sees that instance as [this]; and the two accesses of [p.f == p.f]
    give different objects. *)
Example bound_method_sees_its_instance :
  run_program no_reflection 12
    [Class "A" None [Function "f" [] [Return This]];
     VarDef "p" (Call (Var "A") []);
     VarDef "m" (Getattr (Var "p") "f");
     Print (BinOp (Call (Var "m") []) (Var "p") op_eq);
     Print (BinOp (Getattr (Var "p") "f") (Getattr (Var "p") "f") op_eq)]
  = (Ok tt, ["true"; "false"]).
Proof. vm_compute. reflexivity. Qed.

(** * Calling a function *)

Lemma fold_insert_other (l : list (string * Value))
    (m : gmap string Value) (n : string) :
  n ∉ l.*1 ->
  fold_left (fun m p => <[fst p := snd p]> m) l m !! n = m !! n.
Proof.
  revert m. induction l as [| [k x] l IH]; intros m Hn; [reflexivity |].
  cbn [fold_left fst snd]. cbn [fmap list_fmap fst] in Hn.
  apply not_elem_of_cons in Hn as [Hne Hn].
  rewrite (IH _ Hn). apply lookup_insert_ne. congruence.
Qed.

Lemma fold_insert_member (l : list (string * Value))
    (m : gmap string Value) (n : string) (v : Value) :
  NoDup l.*1 -> (n, v) ∈ l ->
  fold_left (fun m p => <[fst p := snd p]> m) l m !! n = Some v.
Proof.
  revert m. induction l as [| [k x] l IH]; intros m Hnd Hin;
    [inversion Hin |].
  cbn [fold_left fst snd]. cbn [fmap list_fmap fst] in Hnd.
  apply NoDup_cons in Hnd as [Hk Hnd].
  apply elem_of_cons in Hin as [[= -> ->] | Hin].
  - rewrite (fold_insert_other _ _ _ Hk). apply lookup_insert_eq.
  - apply (IH _ Hnd Hin).
Qed.

Lemma combine_zip {A B} (l : list A) (k : list B) : combine l k = zip l k.
Proof.
  revert k. induction l as [| x l IH]; intros [| y k]; cbn;
    rewrite ?IH; reflexivity.
Qed.

(** X20.  [LoxFunction.__call__]: with the wrong number of arguments the call
    raises [TypeError] and nothing else happens; otherwise the body runs
    in a new frame, placed in front of the context the function closed
    over, that binds each parameter to the argument at its position; a
    body that runs to its end makes the call return [nil], a [return]
    makes it return the value, and an exception passes through. *)
Theorem function_call_results (host : Host) (fuel : nat) (f : LoxFunction)
    (args : list Value) (st : State) :
  (length (fn_arg_names f) <> length args ->
   call host (S fuel) (VFunction f) args st = (Raise TypeError None, st, 1))
  /\ (length (fn_arg_names f) = length args ->
      exists st1,
        new_Ctx (dict_zip (fn_arg_names f) args) (fn_ctx f) st
        = (Ok {| frame := next_id st; parents := ctx_chain (fn_ctx f) |},
           st1, 0)
        /\ scope_of st1 (next_id st) = dict_zip (fn_arg_names f) args
        /\ (NoDup (fn_arg_names f) ->
            forall i n v, fn_arg_names f !! i = Some n ->
                          args !! i = Some v ->
                          scope_of st1 (next_id st) !! n = Some v)
        /\ final_state (call host (S fuel) (VFunction f) args st)
           = final_state
               (for_each
                  (fun stmt =>
                     Stmt_eval host fuel stmt
                       {| frame := next_id st;
                          parents := ctx_chain (fn_ctx f) |})
                  (fn_body f) st1)
        /\ outcome (call host (S fuel) (VFunction f) args st)
           = match outcome
                     (for_each
                        (fun stmt =>
                           Stmt_eval host fuel stmt
                             {| frame := next_id st;
                                parents := ctx_chain (fn_ctx f) |})
                        (fn_body f) st1) with
             | Ok _ => Ok VNone
             | LoxReturn v => Ok v
             | Raise c msg => Raise c msg
             | OutOfFuel => OutOfFuel
             end).
Proof.
  split; [apply function_call_arity |].
  intros Hlen. rewrite function_call_unfold.
  rewrite Hlen, Nat.eqb_refl. cbn [negb].
  destruct (new_Ctx_spec (dict_zip (fn_arg_names f) args) (fn_ctx f) st)
    as (st1 & Hctx & Hscope & _).
  exists st1. split; [exact Hctx |]. split; [exact Hscope |]. split.
  - intros Hnd i n v Hn Hv. rewrite Hscope. unfold dict_zip.
    rewrite combine_zip. apply fold_insert_member.
    + rewrite fst_zip by lia. exact Hnd.
    + apply elem_of_lookup_zip_with. exists i, n, v. auto.
  - unfold activation, m_bind, try_except, outcome, final_state.
    rewrite Hctx. cbv beta iota.
    destruct (for_each _ (fn_body f) st1) as [[r st2] d2].
    destruct r as [[] | | |]; split; reflexivity.
Qed.

Lemma function_call_results_witness :
  call no_reflection 1 (VFunction method_f) [VInt 1] super_state
  = (Raise TypeError None, super_state, 1)
  /\ outcome
       (call no_reflection 4
          (VFunction {| fn_id := 1; fn_name := "second";
                        fn_arg_names := ["a"; "b"];
                        fn_body := [Return (Var "b")];
                        fn_ctx := root_ctx |})
          [VInt 7; VInt 8] initial_state)
     = Ok (VInt 8).
Proof.
  split.
  - apply (proj1 (function_call_results no_reflection 0 method_f [VInt 1]
                    super_state)).
    discriminate.
  - destruct (proj2 (function_call_results no_reflection 3
                       {| fn_id := 1; fn_name := "second";
                          fn_arg_names := ["a"; "b"];
                          fn_body := [Return (Var "b")];
                          fn_ctx := root_ctx |}
                       [VInt 7; VInt 8] initial_state) eq_refl)
      as (st1 & Hctx & _ & _ & _ & Hout).
    rewrite Hout. vm_compute in Hctx. injection Hctx as <-.
    vm_compute. reflexivity.
Defined.

(** [fun f(a, b) { print a - b; }  print f(5, 2);] *)
Example function_without_return :
  run_program no_reflection 12
    [Function "f" ["a"; "b"]
       [Print (BinOp (Var "a") (Var "b") op_sub)];
     Print (Call (Var "f") [Literal (LInt 5); Literal (LInt 2)])]
  = (Ok tt, ["3"; "nil"]).
Proof. vm_compute. reflexivity. Qed.


(** * Attribute access on a [LoxSuper] *)






(** Called in that context, [super.f()] returns the instance. *)
Example super_call_sees_this :
  outcome (Expr_eval no_reflection 6 (Call (Super "f") []) method_ctx
             super_state)
  = Ok (VInstance 3 class_A).
Proof. vm_compute. reflexivity. Qed.
